(** * A verified model of the Bitbucket API client ([bitbucket/client.go])

    The package has one routine with decisions in it, [Client.Do], an error
    type with its formatter, and six helpers which call [Do] with fixed
    arguments.  This development embeds them in Rocq and proves the
    properties of the dispatch routine that callers rely on.

    Go strings are byte sequences, and so are Rocq's [string]s (a list of
    8-bit [ascii] characters): a Go [string], a [[]byte] and the contents of
    a [*bytes.Buffer] are all modelled as [string].  Go's [int] values are
    modelled as [Z]; the package does no arithmetic on them.

    The library functions [Do] calls ([fmt.Sprintf], [http.NewRequest],
    [Request.SetBasicAuth], [Header.Add], [Token.SetAuthHeader],
    [io.ReadAll], [json.Unmarshal]) are modelled first, each in a module
    named after its Go package, as far as the calls made by this package
    exercise them. *)

From Stdlib Require Import ZArith List Ascii String Bool Lia.
From stdpp Require Import gmap strings list fin_maps pretty.

Local Open Scope string_scope.
Local Open Scope Z_scope.

(** ** Bytes *)

Definition byte_val (c : ascii) : Z := Z.of_N (N_of_ascii c).
Definition byte_of (z : Z) : ascii := ascii_of_N (Z.to_N z).

Definition in_range (lo hi : Z) (c : ascii) : bool :=
  (lo <=? byte_val c) && (byte_val c <=? hi).

Definition is_digit (c : ascii) : bool := in_range 48 57 c.
Definition is_lower (c : ascii) : bool := in_range 97 122 c.
Definition is_upper (c : ascii) : bool := in_range 65 90 c.
Definition is_alpha (c : ascii) : bool := is_lower c || is_upper c.
Definition is_hex (c : ascii) : bool :=
  is_digit c || in_range 97 102 c || in_range 65 70 c.

Definition to_upper (c : ascii) : ascii :=
  if is_lower c then byte_of (byte_val c - 32) else c.
Definition to_lower (c : ascii) : ascii :=
  if is_upper c then byte_of (byte_val c + 32) else c.

Definition hex_val (c : ascii) : Z :=
  if is_digit c then byte_val c - 48
  else if in_range 97 102 c then byte_val c - 87
  else byte_val c - 55.

Fixpoint string_forallb (p : ascii -> bool) (s : string) : bool :=
  match s with
  | EmptyString => true
  | String c r => p c && string_forallb p r
  end.

(** [strings.Cut s sep] for a one-byte separator: the text before the first
    [sep], the text after it, and whether [sep] occurs. *)
Fixpoint Cut (s : string) (sep : ascii) : string * string * bool :=
  match s with
  | EmptyString => (EmptyString, EmptyString, false)
  | String c r =>
      if Ascii.eqb c sep then (EmptyString, r, true)
      else let '(b, a, found) := Cut r sep in (String c b, a, found)
  end.

(** ** Package [strings]: case folding against ASCII names

    [strings.EqualFold] and the field matching of [encoding/json] compare
    under Unicode simple case folding.  Every name they are compared with
    here is ASCII.  Only two runes outside ASCII fold to an ASCII letter:
    U+017F (long s, bytes C5 BF) folds to [S] and U+212A (Kelvin sign, bytes
    E2 84 AA) folds to [K].  [fold] upper-cases ASCII letters, rewrites those
    two runes, and leaves every other byte of 0x80 and above in place, where
    it can never equal a byte of an ASCII name. *)
Module strings.

Fixpoint fold (s : string) : string :=
  match s with
  | EmptyString => EmptyString
  | String c r =>
      match r with
      | String d r' =>
          if (byte_val c =? 197) && (byte_val d =? 191)
          then String "S"%char (fold r')
          else
            match r' with
            | String e r'' =>
                if (byte_val c =? 226) && (byte_val d =? 132) && (byte_val e =? 170)
                then String "K"%char (fold r'')
                else String (to_upper c) (fold r)
            | EmptyString => String (to_upper c) (fold r)
            end
      | EmptyString => String (to_upper c) EmptyString
      end
  end.

(** [EqualFold s name], exact when [name] is ASCII. *)
Definition EqualFold (s name : string) : bool := String.eqb (fold s) (fold name).

End strings.

(** ** Package [strconv] *)
Module strconv.

Fixpoint digits_val (acc : Z) (s : string) : Z :=
  match s with
  | EmptyString => acc
  | String c r => digits_val (10 * acc + (byte_val c - 48)) r
  end.

Definition all_digits (s : string) : bool :=
  negb (String.eqb s EmptyString) && string_forallb is_digit s.

Definition MinInt64 : Z := - 2 ^ 63.
Definition MaxInt64 : Z := 2 ^ 63 - 1.

(** [strconv.ParseInt s 10 64]: an optional sign, decimal digits, and a
    value that fits 64 bits; [None] stands for the returned error. *)
Definition ParseInt (s : string) : option Z :=
  let '(neg, ds) :=
    match s with
    | String "-"%char r => (true, r)
    | String "+"%char r => (false, r)
    | _ => (false, s)
    end in
  if all_digits ds then
    let n := digits_val 0 ds in
    let v := if neg then - n else n in
    if (MinInt64 <=? v) && (v <=? MaxInt64) then Some v else None
  else None.

(** [strconv.Itoa], which is what the verb [%d] prints for an [int]. *)
Definition Itoa (z : Z) : string := pretty z.

End strconv.

(** ** Package [encoding/base64]: [StdEncoding.EncodeToString] *)
Module base64.

Definition encodeStd : string :=
  "ABCDEFGHIJKLMNOPQRSTUVWXYZabcdefghijklmnopqrstuvwxyz0123456789+/".

Definition sextet (n : Z) : ascii :=
  match String.get (Z.to_nat n) encodeStd with
  | Some c => c
  | None => "="%char
  end.

Fixpoint EncodeToString (src : string) : string :=
  match src with
  | EmptyString => EmptyString
  | String a EmptyString =>
      let v := byte_val a * 65536 in
      String (sextet (v / 262144)) (String (sextet (v / 4096 mod 64)) "==")
  | String a (String b EmptyString) =>
      let v := byte_val a * 65536 + byte_val b * 256 in
      String (sextet (v / 262144)) (String (sextet (v / 4096 mod 64))
        (String (sextet (v / 64 mod 64)) "="))
  | String a (String b (String c r)) =>
      let v := byte_val a * 65536 + byte_val b * 256 + byte_val c in
      String (sextet (v / 262144)) (String (sextet (v / 4096 mod 64))
        (String (sextet (v / 64 mod 64)) (String (sextet (v mod 64))
          (EncodeToString r))))
  end.

End base64.

(** ** Package [fmt]: [Sprintf] for the verbs [%d], [%s] and [%%]

    An operand of the wrong kind and a missing operand print as Go prints
    them.  Other verbs, and operands left over at the end of the format, are
    outside the fragment this package uses: the model copies such a verb
    through and drops such operands. *)
Module fmt.

Inductive operand :=
| Int (z : Z)
| Str (s : string).

Definition bad_verb (v : ascii) (a : operand) : string :=
  match a with
  | Int z => "%!" +:+ String v ("(int=" +:+ strconv.Itoa z +:+ ")")
  | Str s => "%!" +:+ String v ("(string=" +:+ s +:+ ")")
  end.

Definition missing (v : ascii) : string := "%!" +:+ String v "(MISSING)".

Fixpoint Sprintf (format : string) (a : list operand) : string :=
  match format with
  | EmptyString => EmptyString
  | String "%"%char (String "%"%char r) => String "%"%char (Sprintf r a)
  | String "%"%char (String "d"%char r) =>
      match a with
      | Int z :: a' => strconv.Itoa z +:+ Sprintf r a'
      | x :: a' => bad_verb "d" x +:+ Sprintf r a'
      | [] => missing "d" +:+ Sprintf r a
      end
  | String "%"%char (String "s"%char r) =>
      match a with
      | Str s :: a' => s +:+ Sprintf r a'
      | x :: a' => bad_verb "s" x +:+ Sprintf r a'
      | [] => missing "s" +:+ Sprintf r a
      end
  | String c r => String c (Sprintf r a)
  end.

End fmt.

(** ** Package [unicode/utf8] *)
Module utf8.

(** The bytes of U+FFFD, [utf8.RuneError]. *)
Definition RuneError : string :=
  String (byte_of 239) (String (byte_of 191) (String (byte_of 189) EmptyString)).

Definition is_cont (c : ascii) : bool := in_range 128 191 c.

(** Width of the well-formed encoding at the head of [s], as
    [utf8.DecodeRune] accepts it: no overlong form, no surrogate, nothing
    above U+10FFFF.  [None] where [DecodeRune] reports [RuneError] with
    width 1. *)
Definition rune_width (s : string) : option nat :=
  match s with
  | EmptyString => None
  | String b0 r =>
      let v := byte_val b0 in
      if v <? 128 then Some 1%nat
      else if in_range 194 223 b0 then
        match r with
        | String b1 _ => if is_cont b1 then Some 2%nat else None
        | _ => None
        end
      else if in_range 224 239 b0 then
        let lo := if v =? 224 then 160 else 128 in
        let hi := if v =? 237 then 159 else 191 in
        match r with
        | String b1 (String b2 _) =>
            if in_range lo hi b1 && is_cont b2 then Some 3%nat else None
        | _ => None
        end
      else if in_range 240 244 b0 then
        let lo := if v =? 240 then 144 else 128 in
        let hi := if v =? 244 then 143 else 191 in
        match r with
        | String b1 (String b2 (String b3 _)) =>
            if in_range lo hi b1 && is_cont b2 && is_cont b3 then Some 4%nat else None
        | _ => None
        end
      else None
  end.

(** [utf8.EncodeRune]. *)
Definition EncodeRune (r : Z) : string :=
  if (r <? 0) || (1114111 <? r) || ((55296 <=? r) && (r <=? 57343)) then RuneError
  else if r <? 128 then String (byte_of r) EmptyString
  else if r <? 2048 then
    String (byte_of (192 + r / 64)) (String (byte_of (128 + r mod 64)) EmptyString)
  else if r <? 65536 then
    String (byte_of (224 + r / 4096))
      (String (byte_of (128 + r / 64 mod 64))
        (String (byte_of (128 + r mod 64)) EmptyString))
  else
    String (byte_of (240 + r / 262144))
      (String (byte_of (128 + r / 4096 mod 64))
        (String (byte_of (128 + r / 64 mod 64))
          (String (byte_of (128 + r mod 64)) EmptyString))).

End utf8.

(** ** Package [encoding/json]: the syntax [Unmarshal] accepts

    [Unmarshal] first checks the whole input against the JSON grammar
    ([checkValid]) and stores nothing when that fails.  [parse] is that
    check together with the reading of literals: it yields the value tree of
    a well-formed input and [None] for a syntax error.  Strings are unquoted
    as [unquote] does it: escapes are resolved, [\u] escapes are encoded as
    UTF-8 with surrogate pairs joined, and bytes which are not well-formed
    UTF-8 are replaced by U+FFFD.  A number keeps its literal text. *)
Module json.

#[warnings="-register-all"] Inductive value :=
| JNull
| JBool (b : bool)
| JNumber (lit : string)
| JString (s : string)
| JArray (elems : list value)
| JObject (members : list (string * value)).

Definition isSpace (c : ascii) : bool :=
  let v := byte_val c in (v =? 32) || (v =? 9) || (v =? 13) || (v =? 10).

Fixpoint skip_space (s : string) : string :=
  match s with
  | String c r => if isSpace c then skip_space r else s
  | EmptyString => s
  end.

Fixpoint drop (n : nat) (s : string) : string :=
  match n, s with
  | S n', String _ r => drop n' r
  | _, _ => s
  end.

Fixpoint take (n : nat) (s : string) : string :=
  match n, s with
  | S n', String c r => String c (take n' r)
  | _, _ => EmptyString
  end.

(** The longest prefix of digits and what follows it. *)
Fixpoint digits (s : string) : string * string :=
  match s with
  | String c r =>
      if is_digit c then let '(d, rest) := digits r in (String c d, rest)
      else (EmptyString, s)
  | EmptyString => (EmptyString, s)
  end.

(** [getu4]: the value of a [\uXXXX] escape at the head of [s]. *)
Definition getu4 (s : string) : option Z :=
  match s with
  | String "\"%char (String "u"%char (String a (String b (String c (String d _))))) =>
      if is_hex a && is_hex b && is_hex c && is_hex d
      then Some (hex_val a * 4096 + hex_val b * 256 + hex_val c * 16 + hex_val d)
      else None
  | _ => None
  end.

(** The text of a string literal after its opening quote: the unquoted
    string and the input after the closing quote.  The fuel is the length
    of the input, which bounds the number of steps. *)
Fixpoint string_body (fuel : nat) (s : string) : option (string * string) :=
  match fuel with
  | O => None
  | S fuel' =>
      let continue_with (out : string) (rest : string) :=
        match string_body fuel' rest with
        | Some (d, rest') => Some (out +:+ d, rest')
        | None => None
        end in
      match s with
      | EmptyString => None
      | String c r =>
          if byte_val c =? 34 then Some (EmptyString, r)
          else if byte_val c =? 92 then
            match r with
            | EmptyString => None
            | String e r' =>
                let one (z : Z) := continue_with (String (byte_of z) EmptyString) r' in
                match byte_val e with
                | 34 => one 34
                | 92 => one 92
                | 47 => one 47
                | 98 => one 8
                | 102 => one 12
                | 110 => one 10
                | 114 => one 13
                | 116 => one 9
                | 117 =>
                    match getu4 s with
                    | None => None
                    | Some rr =>
                        let after := drop 6 s in
                        if (55296 <=? rr) && (rr <? 57344) then
                          match getu4 after with
                          | Some rr1 =>
                              if (rr <? 56320) && (56320 <=? rr1) && (rr1 <? 57344)
                              then continue_with
                                     (utf8.EncodeRune
                                        ((rr - 55296) * 1024 + (rr1 - 56320) + 65536))
                                     (drop 6 after)
                              else continue_with utf8.RuneError after
                          | None => continue_with utf8.RuneError after
                          end
                        else continue_with (utf8.EncodeRune rr) after
                    end
                | _ => None
                end
            end
          else if byte_val c <? 32 then None
          else if byte_val c <? 128 then continue_with (String c EmptyString) r
          else
            match utf8.rune_width s with
            | Some w => continue_with (take w s) (drop w s)
            | None => continue_with utf8.RuneError r
            end
      end
  end.

Definition string_lit (s : string) : option (string * string) :=
  string_body (S (String.length s)) s.

(** A number literal at the head of [s]: its text and the rest. *)
Definition number_lit (s : string) : option (string * string) :=
  let '(sign, s1) :=
    match s with
    | String "-"%char r => ("-", r)
    | _ => (EmptyString, s)
    end in
  let int_part :=
    match s1 with
    | String "0"%char r => Some ("0", r)
    | String c _ =>
        if is_digit c then Some (digits s1) else None
    | EmptyString => None
    end in
  match int_part with
  | None => None
  | Some (ip, s2) =>
      let frac :=
        match s2 with
        | String "."%char r =>
            let '(d, rest) := digits r in
            if String.eqb d EmptyString then None else Some ("." +:+ d, rest)
        | _ => Some (EmptyString, s2)
        end in
      match frac with
      | None => None
      | Some (fp, s3) =>
          let expo :=
            match s3 with
            | String c r =>
                if (byte_val c =? 101) || (byte_val c =? 69) then
                  let '(sg, r1) :=
                    match r with
                    | String "+"%char r' => ("+", r')
                    | String "-"%char r' => ("-", r')
                    | _ => (EmptyString, r)
                    end in
                  let '(d, rest) := digits r1 in
                  if String.eqb d EmptyString then None
                  else Some (String c sg +:+ d, rest)
                else Some (EmptyString, s3)
            | EmptyString => Some (EmptyString, s3)
            end in
          match expo with
          | None => None
          | Some (ep, s4) => Some (sign +:+ ip +:+ fp +:+ ep, s4)
          end
      end
  end.

Definition strip_prefix (p s : string) : option string :=
  if String.prefix p s then Some (drop (String.length p) s) else None.

(** The scanner's [maxNestingDepth]: an array or object nested deeper is a
    syntax error. *)
Definition maxNestingDepth : nat := Z.to_nat 10000.

(** A value at the head of [s] (the caller has skipped white space).
    [depth] is the number of further levels of nesting allowed. *)
Fixpoint parse_value (depth : nat) (s : string) : option (value * string) :=
  match s with
  | EmptyString => None
  | String c r =>
      if byte_val c =? 34 then
        match string_lit r with
        | Some (str, rest) => Some (JString str, rest)
        | None => None
        end
      else if byte_val c =? 91 then
        match depth with
        | O => None
        | S d =>
            match skip_space r with
            | String "]"%char rest => Some (JArray [], rest)
            | first =>
                (fix elements (fuel : nat) (s : string) (acc : list value)
                   : option (value * string) :=
                   match fuel with
                   | O => None
                   | S fuel' =>
                       match parse_value d (skip_space s) with
                       | None => None
                       | Some (v, rest) =>
                           match skip_space rest with
                           | String ","%char rest' => elements fuel' rest' (v :: acc)
                           | String "]"%char rest' => Some (JArray (rev (v :: acc)), rest')
                           | _ => None
                           end
                       end
                   end) (S (String.length first)) first []
            end
        end
      else if byte_val c =? 123 then
        match depth with
        | O => None
        | S d =>
            match skip_space r with
            | String "}"%char rest => Some (JObject [], rest)
            | first =>
                (fix members (fuel : nat) (s : string) (acc : list (string * value))
                   : option (value * string) :=
                   match fuel with
                   | O => None
                   | S fuel' =>
                       match skip_space s with
                       | String q s1 =>
                           match (if byte_val q =? 34 then string_lit s1 else None) with
                           | None => None
                           | Some (key, s2) =>
                               match skip_space s2 with
                               | String ":"%char s3 =>
                                   match parse_value d (skip_space s3) with
                                   | None => None
                                   | Some (v, rest) =>
                                       match skip_space rest with
                                       | String ","%char rest' =>
                                           members fuel' rest' ((key, v) :: acc)
                                       | String "}"%char rest' =>
                                           Some (JObject (rev ((key, v) :: acc)), rest')
                                       | _ => None
                                       end
                                   end
                               | _ => None
                               end
                           end
                       | _ => None
                       end
                   end) (S (String.length first)) first []
            end
        end
      else if (byte_val c =? 45) || is_digit c then
        match number_lit s with
        | Some (lit, rest) => Some (JNumber lit, rest)
        | None => None
        end
      else
        match strip_prefix "true" s, strip_prefix "false" s, strip_prefix "null" s with
        | Some rest, _, _ => Some (JBool true, rest)
        | _, Some rest, _ => Some (JBool false, rest)
        | _, _, Some rest => Some (JNull, rest)
        | _, _, _ => None
        end
  end.

Definition parse (data : string) : option value :=
  match parse_value maxNestingDepth (skip_space data) with
  | Some (v, rest) =>
      match skip_space rest with
      | EmptyString => Some v
      | _ => None
      end
  | None => None
  end.

End json.


(** ** The error type of the package and Go's [error] interface *)

(** The anonymous struct of the field [APIError]. *)
Record APIErrorT := mkAPIError { Message : string }.

(** [type Error struct].  No field carries a [json:"-"] tag, so all four are
    visible to [json.Unmarshal]: [APIError] under the name [error], [Type]
    under [type], [StatusCode] and [Endpoint] under their own names. *)
Record Error := mkError {
  APIError : APIErrorT;
  Type_ : string;
  StatusCode : Z;
  Endpoint : string
}.

(** What [json.Unmarshal] reports. *)
Inductive json_error :=
| SyntaxError
| UnmarshalTypeError (Value : string) (GoType : string).

(** The values an [error] interface holds in this program.  [None] of
    [option error] is the [nil] interface. *)
Inductive error :=
| errorString (s : string)
| urlError (Op URL : string)
| jsonError (e : json_error)
| bitbucketError (e : Error).

(** [func (e Error) Error() string] *)
Definition Error_Error (e : Error) : string :=
  fmt.Sprintf "API Error: %d %s %s"
    [fmt.Int (StatusCode e); fmt.Str (Endpoint e); fmt.Str (Message (APIError e))].

(** ** Package [io]: a reader is the bytes it yields and the error, if any,
    that ends the reading. *)
Module io.

Record Reader := mkReader { data : string; failure : option error }.

(** [io.ReadAll]: the bytes read, and [nil] unless reading failed. *)
Definition ReadAll (r : Reader) : string * option error := (data r, failure r).

End io.

(** ** Package [net/url]: which request URLs [url.Parse] accepts

    Every URL the package parses starts with the constant
    [BitbucketEndpoint], so the scheme and the authority are fixed and
    well-formed.  What remains of [Parse]: the fragment is cut off at the
    first [#]; the rest must hold no control byte; the path, which ends at
    the first [?], and the fragment must have two hex digits after every
    [%].  The query is not checked. *)
Module url.

Definition stringContainsCTLByte (s : string) : bool :=
  negb (string_forallb (fun c => negb ((byte_val c <? 32) || (byte_val c =? 127))) s).

(** The validation pass of [unescape] in path and fragment mode. *)
Fixpoint escapes_ok (s : string) : bool :=
  match s with
  | EmptyString => true
  | String c r =>
      if byte_val c =? 37 then
        match r with
        | String a (String b r') => is_hex a && is_hex b && escapes_ok r'
        | _ => false
        end
      else escapes_ok r
  end.

Definition Parse (rawURL : string) : option error :=
  let '(u, frag, _) := Cut rawURL "#" in
  if stringContainsCTLByte u then Some (urlError "parse" u)
  else
    let '(path, _, _) := Cut u "?" in
    if negb (escapes_ok path) then Some (urlError "parse" u)
    else if negb (escapes_ok frag) then Some (urlError "parse" rawURL)
    else None.

End url.

(** ** Package [net/http] *)
Module http.

(** [httpguts.IsTokenRune], also [validHeaderFieldByte] of [net/textproto]. *)
Definition isToken (c : ascii) : bool :=
  is_alpha c || is_digit c ||
  existsb (Ascii.eqb c)
    ["!"; "#"; "$"; "%"; "&"; "'"; "*"; "+"; "-"; "."; "^"; "_"; "`"; "|"; "~"]%char.

Definition validMethod (method : string) : bool :=
  negb (String.eqb method EmptyString) && string_forallb isToken method.

Fixpoint canonical_from (upper : bool) (s : string) : string :=
  match s with
  | EmptyString => EmptyString
  | String c r =>
      let c' := if upper then to_upper c else to_lower c in
      String c' (canonical_from (Ascii.eqb c' "-") r)
  end.

(** [textproto.CanonicalMIMEHeaderKey]: a key with a byte that is not a
    token byte is left as it is. *)
Definition CanonicalMIMEHeaderKey (s : string) : string :=
  if string_forallb isToken s then canonical_from true s else s.

(** [type Header map[string][]string] *)
Abbreviation Header := (gmap string (list string)).

Definition Header_Values (h : Header) (key : string) : list string :=
  default [] (h !! CanonicalMIMEHeaderKey key).

(** [Header.Add]: append to the values of the key. *)
Definition Header_Add (h : Header) (key value : string) : Header :=
  <[CanonicalMIMEHeaderKey key := (Header_Values h key ++ [value])%list]> h.

(** [Header.Set]: replace the values of the key. *)
Definition Header_Set (h : Header) (key value : string) : Header :=
  <[CanonicalMIMEHeaderKey key := [value]]> h.

(** The fields of [http.Request] which [Do] reads or writes. *)
Record Request := mkRequest {
  Method : string;
  URL : string;
  Header_ : Header;
  Body : option string;
  Close : bool
}.

Definition with_Header (r : Request) (h : Header) : Request :=
  mkRequest (Method r) (URL r) h (Body r) (Close r).

Definition with_Close (r : Request) (b : bool) : Request :=
  mkRequest (Method r) (URL r) (Header_ r) (Body r) b.

(** [http.NewRequest]: an empty method means GET; the method must be a
    token and the URL must parse.  The new request has an empty header. *)
Definition NewRequest (method url : string) (body : option string)
  : Request + error :=
  let method := if String.eqb method EmptyString then "GET" else method in
  if negb (validMethod method)
  then inr (errorString ("net/http: invalid method " +:+ method))
  else
    match url.Parse url with
    | Some err => inr err
    | None => inl (mkRequest method url ∅ body false)
    end.

(** [Request.SetBasicAuth] *)
Definition SetBasicAuth (r : Request) (username password : string) : Request :=
  with_Header r
    (Header_Set (Header_ r) "Authorization"
       ("Basic " +:+ base64.EncodeToString (username +:+ ":" +:+ password))).

(** The fields of [http.Response] which [Do] reads.  Reading the body
    drains a stream inside the response; the model keeps the response a
    value and does not record how much of the body has been read. *)
Record Response := mkResponse {
  StatusCode : Z;
  Body_ : io.Reader
}.

(** [*http.Client], the transport.  [Client_Do] gives the answer to a
    request after the requests sent before it; it returns Go's pair of a
    response pointer and an error, either of which can be [nil]. *)
Record Client := mkClient {
  Client_Do : list Request -> Request -> option Response * option error
}.

End http.

(** ** Package [golang.org/x/oauth2] *)
Module oauth2.

Record Token := mkToken {
  AccessToken : string;
  TokenType : string
}.

(** [Token.Type] *)
Definition Type_ (t : Token) : string :=
  if strings.EqualFold (TokenType t) "bearer" then "Bearer"
  else if strings.EqualFold (TokenType t) "mac" then "MAC"
  else if strings.EqualFold (TokenType t) "basic" then "Basic"
  else if negb (String.eqb (TokenType t) EmptyString) then TokenType t
  else "Bearer".

(** [Token.SetAuthHeader] *)
Definition SetAuthHeader (t : Token) (r : http.Request) : http.Request :=
  http.with_Header r
    (http.Header_Set (http.Header_ r) "Authorization" (Type_ t +:+ " " +:+ AccessToken t)).

(** [interface TokenSource].  [Token_ n] is what the call [Token()] returns
    when [n] calls were made before it: Go's pair of a token pointer and an
    error. *)
Record TokenSource := mkTokenSource {
  Token_ : nat -> option Token * option error
}.

End oauth2.

(** ** [json.Unmarshal] into a value of type [Error]

    The decoder walks the value tree.  A member of an object is stored into
    the field whose name equals its key under case folding; a member which
    matches no field is skipped.  [null] stores nothing.  A value of the
    wrong kind for its field stores nothing either: the first such mismatch
    is kept aside ([saveError]), decoding goes on with the members that
    follow, and [Unmarshal] returns the mismatch at the end. *)

Definition saveError (saved : option json_error) (e : json_error) : option json_error :=
  match saved with
  | Some _ => saved
  | None => Some e
  end.

Definition kind (v : json.value) : string :=
  match v with
  | json.JNull => "null"
  | json.JBool _ => "bool"
  | json.JNumber _ => "number"
  | json.JString _ => "string"
  | json.JArray _ => "array"
  | json.JObject _ => "object"
  end.

Definition store_string (v : json.value) (cur : string) (saved : option json_error)
  : string * option json_error :=
  match v with
  | json.JNull => (cur, saved)
  | json.JString s => (s, saved)
  | _ => (cur, saveError saved (UnmarshalTypeError (kind v) "string"))
  end.

Definition store_int (v : json.value) (cur : Z) (saved : option json_error)
  : Z * option json_error :=
  match v with
  | json.JNull => (cur, saved)
  | json.JNumber lit =>
      match strconv.ParseInt lit with
      | Some z => (z, saved)
      | None => (cur, saveError saved (UnmarshalTypeError ("number " +:+ lit) "int"))
      end
  | _ => (cur, saveError saved (UnmarshalTypeError (kind v) "int"))
  end.

(** Does the object key [key] select the field with JSON name [name]? *)
Definition names_field (name key : string) : bool := strings.EqualFold key name.

Definition decode_APIError_member
  (st : APIErrorT * option json_error) (m : string * json.value)
  : APIErrorT * option json_error :=
  let '(cur, saved) := st in
  let '(key, v) := m in
  if names_field "message" key then
    let '(s, saved') := store_string v (Message cur) saved in (mkAPIError s, saved')
  else st.

Definition decode_APIError (v : json.value) (cur : APIErrorT) (saved : option json_error)
  : APIErrorT * option json_error :=
  match v with
  | json.JNull => (cur, saved)
  | json.JObject members => fold_left decode_APIError_member members (cur, saved)
  | _ => (cur, saveError saved (UnmarshalTypeError (kind v) "struct"))
  end.

Definition decode_Error_member
  (st : Error * option json_error) (m : string * json.value)
  : Error * option json_error :=
  let '(cur, saved) := st in
  let '(key, v) := m in
  if names_field "error" key then
    let '(a, saved') := decode_APIError v (APIError cur) saved in
    (mkError a (Type_ cur) (StatusCode cur) (Endpoint cur), saved')
  else if names_field "type" key then
    let '(t, saved') := store_string v (Type_ cur) saved in
    (mkError (APIError cur) t (StatusCode cur) (Endpoint cur), saved')
  else if names_field "StatusCode" key then
    let '(n, saved') := store_int v (StatusCode cur) saved in
    (mkError (APIError cur) (Type_ cur) n (Endpoint cur), saved')
  else if names_field "Endpoint" key then
    let '(e, saved') := store_string v (Endpoint cur) saved in
    (mkError (APIError cur) (Type_ cur) (StatusCode cur) e, saved')
  else st.

Definition decode_Error (v : json.value) (cur : Error) (saved : option json_error)
  : Error * option json_error :=
  match v with
  | json.JNull => (cur, saved)
  | json.JObject members => fold_left decode_Error_member members (cur, saved)
  | _ => (cur, saveError saved (UnmarshalTypeError (kind v) "bitbucket.Error"))
  end.

(** [json.Unmarshal(data, &v)] for [v] of type [Error]: the value [v] holds
    afterwards and the returned error. *)
Definition Unmarshal (data : string) (v : Error) : Error * option error :=
  match json.parse data with
  | None => (v, Some (jsonError SyntaxError))
  | Some j =>
      let '(v', saved) := decode_Error j v None in
      (v', option_map jsonError saved)
  end.

(** ** The client and the state around a call *)

(** [BitbucketEndpoint] is the fqdn used to talk to bitbucket. *)
Definition BitbucketEndpoint : string := "https://api.bitbucket.org/".

(** [type Client struct].  A pointer field is an [option]: [None] is [nil]. *)
Record Client := mkBitbucketClient {
  Username : option string;
  Password : option string;
  OAuthToken : option string;
  OAuthTokenSource : option oauth2.TokenSource;
  HTTPClient : option http.Client
}.

(** An operand of a [log.Printf] call.  The text [%v] prints for a response
    or an error is not modelled; the log keeps the operands. *)
Inductive log_operand :=
| LogStr (s : string)
| LogResp (r : option http.Response)
| LogErr (e : option error).

(** What a call of [Do] can read and change: the [Client] struct behind the
    receiver [c], the number of calls made to the token source, the requests
    handed to the transport (oldest first), and the lines logged. *)
Record World := mkWorld {
  client : Client;
  token_calls : nat;
  sent : list http.Request;
  logged : list (string * list log_operand)
}.

Inductive panic :=
| NilPointerDereference.

(** A statement of a Go function body with result type [R] either goes on
    with a value, returns from the function, or panics. *)
Inductive flow (R A : Type) :=
| Next (a : A)
| Return (r : R)
| Panic (p : panic).
Arguments Next {R A} a.
Arguments Return {R A} r.
Arguments Panic {R A} p.

Definition M (R A : Type) : Type := World -> flow R A * World.

#[global] Instance M_ret {R} : MRet (M R) := fun A a w => (Next a, w).

#[global] Instance M_bind {R} : MBind (M R) := fun A B f m w =>
  match m w with
  | (Next a, w') => f a w'
  | (Return r, w') => (Return r, w')
  | (Panic p, w') => (Panic p, w')
  end.

Definition return_ {R A} (r : R) : M R A := fun w => (Return r, w).
Definition raise {R A} (p : panic) : M R A := fun w => (Panic p, w).

(** [c.f], a read through the receiver. *)
Definition field {R A} (f : Client -> A) : M R A := fun w => (Next (f (client w)), w).

(** [log.Printf] *)
Definition log_Printf {R} (format : string) (a : list log_operand) : M R unit :=
  fun w => (Next tt, mkWorld (client w) (token_calls w) (sent w) (logged w ++ [(format, a)])).

(** [ts.Token()] *)
Definition call_Token {R} (ts : oauth2.TokenSource)
  : M R (option oauth2.Token * option error) :=
  fun w => (Next (oauth2.Token_ ts (token_calls w)),
            mkWorld (client w) (S (token_calls w)) (sent w) (logged w)).

(** [hc.Do(req)] on a transport which is not [nil]. *)
Definition call_Do {R} (hc : http.Client) (req : http.Request)
  : M R (option http.Response * option error) :=
  fun w => (Next (http.Client_Do hc (sent w) req),
            mkWorld (client w) (token_calls w) (sent w ++ [req]) (logged w)).

(** How a call of a function ends. *)
Inductive outcome (R : Type) :=
| Returned (r : R)
| Panicked (p : panic).
Arguments Returned {R} r.
Arguments Panicked {R} p.

Definition call {R} (body : M R R) (w : World) : outcome R * World :=
  match body w with
  | (Next r, w') => (Returned r, w')
  | (Return r, w') => (Returned r, w')
  | (Panic p, w') => (Panicked p, w')
  end.

(** The pair of a response pointer and an error which [Do] returns. *)
Abbreviation result := (option http.Response * option error)%type.

(** ** [Do] and the helpers *)

(** [Client.Do]: call the bitbucket api, adding auth and some extra headers.
    [payload] is the [*bytes.Buffer], [None] for [nil]; the receiver [c] is
    the [Client] of the state.  An early [return] of the Go body is
    [return_]; a [nil] pointer that the body reads through ([token] in
    [token.SetAuthHeader], [c.HTTPClient] in its [Do], [resp] in
    [resp.StatusCode]) is [raise NilPointerDereference]. *)
Definition Do (method endpoint : string) (payload : option string) (addJsonHeader : bool)
  : World -> outcome result * World :=
  call (
    let absoluteendpoint := BitbucketEndpoint +:+ endpoint in
    log_Printf "[DEBUG] Sending request to %s %s" [LogStr method; LogStr absoluteendpoint];;
    bodyreader ←
      match payload with
      | Some p => log_Printf "[DEBUG] With payload %s" [LogStr p];; mret (Some p)
      | None => mret None
      end;
    req ←
      match http.NewRequest method absoluteendpoint bodyreader with
      | inr err => return_ (None, Some err)
      | inl req => mret req
      end;
    username ← field Username;
    password ← field Password;
    req ←
      match username, password with
      | Some u, Some p =>
          log_Printf "[DEBUG] Setting Basic Auth" [];;
          mret (http.SetBasicAuth req u p)
      | _, _ => mret req
      end;
    oauthToken ← field OAuthToken;
    req ←
      match oauthToken with
      | Some t =>
          log_Printf "[DEBUG] Setting Bearer Token" [];;
          let bearer := "Bearer " +:+ t in
          mret (http.with_Header req (http.Header_Add (http.Header_ req) "Authorization" bearer))
      | None => mret req
      end;
    tokenSource ← field OAuthTokenSource;
    req ←
      match tokenSource with
      | Some ts =>
          '(token, err) ← call_Token ts;
          match err with
          | Some e => return_ (None, Some e)
          | None =>
              match token with
              | Some t => mret (oauth2.SetAuthHeader t req)
              | None => raise NilPointerDereference
              end
          end
      | None => mret req
      end;
    let req :=
      if bool_decide (is_Some payload) && addJsonHeader
      then http.with_Header req
             (http.Header_Add (http.Header_ req) "Content-Type" "application/json")
      else req in
    let req := http.with_Close req true in
    httpClient ← field HTTPClient;
    '(resp, err) ←
      match httpClient with
      | Some hc => call_Do hc req
      | None => raise NilPointerDereference
      end;
    log_Printf "[DEBUG] Resp: %v Err: %v" [LogResp resp; LogErr err];;
    match resp with
    | None => raise NilPointerDereference
    | Some r =>
        if (400 <=? http.StatusCode r) || (http.StatusCode r <? 200) then
          let apiError :=
            mkError (mkAPIError EmptyString) EmptyString (http.StatusCode r) endpoint in
          let '(body, err) := io.ReadAll (http.Body_ r) in
          match err with
          | Some e => return_ (None, Some e)
          | None =>
              log_Printf "[DEBUG] Resp Body: %s" [LogStr body];;
              let '(apiError, err) := Unmarshal body apiError in
              let apiError :=
                match err with
                | Some _ =>
                    mkError (mkAPIError body) (Type_ apiError)
                      (StatusCode apiError) (Endpoint apiError)
                | None => apiError
                end in
              return_ (Some r, Some (bitbucketError apiError))
          end
        else return_ (resp, err)
    end).

(** [Get] is just a helper method to do but with a GET verb. *)
Definition Get (endpoint : string) : World -> outcome result * World :=
  Do "GET" endpoint None true.

(** [Post] is just a helper method to do but with a POST verb. *)
Definition Post (endpoint : string) (jsonpayload : option string)
  : World -> outcome result * World :=
  Do "POST" endpoint jsonpayload true.

(** [PostNonJson] is just a helper method to do but with a POST verb without
    Json Header. *)
Definition PostNonJson (endpoint : string) (jsonpayload : option string)
  : World -> outcome result * World :=
  Do "POST" endpoint jsonpayload false.

(** [Put] is just a helper method to do but with a PUT verb. *)
Definition Put (endpoint : string) (jsonpayload : option string)
  : World -> outcome result * World :=
  Do "PUT" endpoint jsonpayload true.

(** [PutOnly] is just a helper method to do but with a PUT verb and a nil
    body. *)
Definition PutOnly (endpoint : string) : World -> outcome result * World :=
  Do "PUT" endpoint None true.

(** [Delete] is just a helper to Do but with a DELETE verb. *)
Definition Delete (endpoint : string) : World -> outcome result * World :=
  Do "DELETE" endpoint None true.

(** ** Vocabulary of the statements *)

(** Does some member of the object select the field [name]? *)
Definition has_member (name : string) (members : list (string * json.value)) : bool :=
  existsb (fun m => names_field name (fst m)) members.

(** Exactly one member of the object selects the field [name], and its value
    is [v]. *)
Definition only_member (name : string) (v : json.value)
  (members : list (string * json.value)) : Prop :=
  exists pre key post,
    members = (pre ++ (key, v) :: post)%list /\
    names_field name key = true /\
    has_member name pre = false /\
    has_member name post = false.

(** Is the body a JSON object with a member which selects the field? *)
Definition body_has_member (name : string) (body : string) : bool :=
  match json.parse body with
  | Some (json.JObject members) => has_member name members
  | _ => false
  end.

(** The error value [Do] starts from, before it decodes the body. *)
Definition blank_error (status : Z) (endpoint : string) : Error :=
  mkError (mkAPIError EmptyString) EmptyString status endpoint.

(** ** Scenarios for the examples *)

(** JSON text written with apostrophes in place of double quotes. *)
Fixpoint js (s : string) : string :=
  match s with
  | EmptyString => EmptyString
  | String c r => String (if byte_val c =? 39 then byte_of 34 else c) (js r)
  end.

(** A transport which answers every request with the given status and body. *)
Definition answering (status : Z) (body : string) : http.Client :=
  http.mkClient (fun _ _ => (Some (http.mkResponse status (io.mkReader body None)), None)).

(** A transport which fails on every request: no response and an error. *)
Definition unreachable (err : error) : http.Client :=
  http.mkClient (fun _ _ => (None, Some err)).

(** A transport whose responses have a body that cannot be read. *)
Definition truncating (status : Z) (err : error) : http.Client :=
  http.mkClient
    (fun _ _ => (Some (http.mkResponse status (io.mkReader EmptyString (Some err))), None)).

(** A client without credentials on the given transport. *)
Definition anonymous (hc : http.Client) : Client :=
  mkBitbucketClient None None None None (Some hc).

(** The state before the first call. *)
Definition fresh (c : Client) : World := mkWorld c 0 [] [].

(** The [Authorization] value of basic auth, if user name and password are
    both set. *)
Definition basic_credentials (c : Client) : list string :=
  match Username c, Password c with
  | Some u, Some p => ["Basic " +:+ base64.EncodeToString (u +:+ ":" +:+ p)]
  | _, _ => []
  end.

(** The [Authorization] value of the static token, if one is set. *)
Definition bearer_credentials (c : Client) : list string :=
  match OAuthToken c with
  | Some t => ["Bearer " +:+ t]
  | None => []
  end.

(** The error body of the examples. *)
Definition not_found : string := js "{'error':{'message':'nope'}}".

(** A client with a user name, an app password and a static token. *)
Definition alice : Client :=
  mkBitbucketClient (Some "alice") (Some "secret") (Some "tok") None
    (Some (answering 200 EmptyString)).

(** A token source which cannot produce a token. *)
Definition expired : oauth2.TokenSource :=
  oauth2.mkTokenSource (fun _ => (None, Some (errorString "oauth2: cannot fetch token"))).


(** The request [Get "2.0/user"] sends when no credentials are configured. *)
Definition get_user : http.Request :=
  http.mkRequest "GET" "https://api.bitbucket.org/2.0/user" ∅ None true.

(** The response of the transport [answering status body]. *)
Definition answer (status : Z) (body : string) : http.Response :=
  http.mkResponse status (io.mkReader body None).

(** ** Further vocabulary and scenarios *)

(** Does some member of the object select one of the four fields of
    [Error]? *)
Definition has_known_member (members : list (string * json.value)) : bool :=
  has_member "error" members || has_member "type" members
  || has_member "StatusCode" members || has_member "Endpoint" members.

(** A transport which stops at a redirect: a response and an error. *)
Definition stopping (status : Z) (err : error) : http.Client :=
  http.mkClient (fun _ _ => (Some (answer status EmptyString), Some err)).

(** An error page which is not JSON. *)
Definition bad_gateway : string := "<html>502 Bad Gateway</html>".

(** An error body whose [error] member has the wrong kind. *)
Definition typed_error : string := js "{'type':'error','error':5}".


(** An error body which names the fields [StatusCode] and [Endpoint]. *)
Definition spoofed : string := js "{'statuscode':200,'endpoint':'elsewhere'}".

(** The zero value of [Client]: no credentials and no transport. *)
Definition unconfigured : Client := mkBitbucketClient None None None None None.

(** A call on [endpoint] in the state [w] can reach the transport: the URL
    parses, the token source (if there is one) yields a token, and there is
    a transport. *)
Definition dispatchable (endpoint : string) (w : World) : Prop :=
  url.Parse (BitbucketEndpoint +:+ endpoint) = None /\
  (forall ts, OAuthTokenSource (client w) = Some ts ->
              exists t, oauth2.Token_ ts (token_calls w) = (Some t, None)) /\
  HTTPClient (client w) <> None.

(** * Properties *)

(** ** The library models on known values *)

Example base64_rfc7617 :
  base64.EncodeToString "Aladdin:open sesame" = "QWxhZGRpbjpvcGVuIHNlc2FtZQ==".
Proof. reflexivity. Qed.

Example fold_kelvin :
  strings.fold (String (byte_of 226) (String (byte_of 132) (String (byte_of 170) "ey")))
  = "KEY".
Proof. reflexivity. Qed.

Example Sprintf_two : fmt.Sprintf "%d %s!" [fmt.Int (-7); fmt.Str "x"] = "-7 x!".
Proof. reflexivity. Qed.

Example parse_not_found :
  json.parse not_found
  = Some (json.JObject [("error", json.JObject [("message", json.JString "nope")])]).
Proof. vm_compute. reflexivity. Qed.

Example parse_rejects_trailing_comma : json.parse (js "{'a':1,}") = None.
Proof. vm_compute. reflexivity. Qed.

Example parse_rejects_plain_text : json.parse "internal failure" = None.
Proof. vm_compute. reflexivity. Qed.

(** ** Strings and lists *)

Lemma append_empty_r (s : string) : s +:+ EmptyString = s.
Proof.
  induction s as [|c s IH]; [reflexivity|].
  change (String c (s +:+ EmptyString) = String c s). now rewrite IH.
Qed.

Lemma app_one_neq {A} (l : list A) (x : A) : l <> (l ++ [x])%list.
Proof.
  intros H. apply (f_equal length) in H. rewrite length_app in H. simpl in H. lia.
Qed.

Lemma app_one_inj {A} (l : list A) (x y : A) : (l ++ [x] = l ++ [y])%list -> x = y.
Proof. intros H. apply app_inv_head in H. congruence. Qed.

Lemma failure_status status :
  status < 200 \/ 400 <= status ->
  (400 <=? status) || (status <? 200) = true.
Proof. intros [H|H]; apply orb_true_iff; [right|left]; lia. Qed.

Lemma passing_status status :
  200 <= status < 400 ->
  (400 <=? status) || (status <? 200) = false.
Proof. intros H. apply orb_false_iff. split; lia. Qed.

(** ** Decoding the body of a failed response *)

Section Decoding.

Implicit Types (members : list (string * json.value)) (st : Error * option json_error).

(** A member which does not select a field leaves the field alone. *)
Lemma decode_member_StatusCode st m :
  names_field "StatusCode" (fst m) = false ->
  StatusCode (fst (decode_Error_member st m)) = StatusCode (fst st).
Proof.
  destruct st as [cur saved], m as [key v]. cbn [fst]. intros Hkey.
  unfold decode_Error_member. rewrite Hkey.
  repeat case_match; reflexivity.
Qed.

Lemma decode_member_Endpoint st m :
  names_field "Endpoint" (fst m) = false ->
  Endpoint (fst (decode_Error_member st m)) = Endpoint (fst st).
Proof.
  destruct st as [cur saved], m as [key v]. cbn [fst]. intros Hkey.
  unfold decode_Error_member. rewrite Hkey.
  repeat case_match; reflexivity.
Qed.

Lemma decode_member_APIError st m :
  names_field "error" (fst m) = false ->
  APIError (fst (decode_Error_member st m)) = APIError (fst st).
Proof.
  destruct st as [cur saved], m as [key v]. cbn [fst]. intros Hkey.
  unfold decode_Error_member. rewrite Hkey.
  repeat case_match; reflexivity.
Qed.

(** The same over all the members of an object, by induction on them. *)
Lemma decode_members_frame {A} (proj : Error -> A) name members :
  (forall st m, names_field name (fst m) = false ->
                proj (fst (decode_Error_member st m)) = proj (fst st)) ->
  has_member name members = false ->
  forall st, proj (fst (fold_left decode_Error_member members st)) = proj (fst st).
Proof.
  intros Hstep. induction members as [|m members IH]; intros Hno st.
  - reflexivity.
  - cbn [has_member existsb] in Hno. apply orb_false_elim in Hno as [Hm Hrest].
    cbn [fold_left]. rewrite IH by exact Hrest. apply Hstep, Hm.
Qed.

Lemma decode_Error_StatusCode v cur saved :
  (forall members, v = json.JObject members -> has_member "StatusCode" members = false) ->
  StatusCode (fst (decode_Error v cur saved)) = StatusCode cur.
Proof.
  intros Hv. destruct v; try reflexivity. cbn [decode_Error].
  rewrite (decode_members_frame StatusCode "StatusCode"); auto using decode_member_StatusCode.
Qed.

Lemma decode_Error_Endpoint v cur saved :
  (forall members, v = json.JObject members -> has_member "Endpoint" members = false) ->
  Endpoint (fst (decode_Error v cur saved)) = Endpoint cur.
Proof.
  intros Hv. destruct v; try reflexivity. cbn [decode_Error].
  rewrite (decode_members_frame Endpoint "Endpoint"); auto using decode_member_Endpoint.
Qed.

Lemma decode_Error_no_error members cur saved :
  has_member "error" members = false ->
  APIError (fst (decode_Error (json.JObject members) cur saved)) = APIError cur.
Proof.
  intros Hno. cbn [decode_Error].
  rewrite (decode_members_frame APIError "error"); auto using decode_member_APIError.
Qed.

Lemma decode_Error_mismatch j v :
  kind j <> "object" -> kind j <> "null" -> snd (decode_Error j v None) <> None.
Proof.
  intros Hobj Hnull.
  destruct j; cbn [kind decode_Error saveError snd] in *; congruence.
Qed.

End Decoding.

Section DecodingMessage.

Implicit Types (ms : list (string * json.value)) (st : APIErrorT * option json_error).

Lemma decode_APIError_member_frame st m :
  names_field "message" (fst m) = false ->
  decode_APIError_member st m = st.
Proof.
  destruct st as [cur saved], m as [key v]. cbn [fst]. intros Hkey.
  unfold decode_APIError_member. now rewrite Hkey.
Qed.

Lemma decode_APIError_members_frame ms :
  has_member "message" ms = false ->
  forall st, fold_left decode_APIError_member ms st = st.
Proof.
  induction ms as [|m ms IH]; intros Hno st.
  - reflexivity.
  - cbn [has_member existsb] in Hno. apply orb_false_elim in Hno as [Hm Hrest].
    cbn [fold_left]. rewrite decode_APIError_member_frame by exact Hm.
    apply IH, Hrest.
Qed.

(** The only [message] member of the [error] object, a string, is what the
    field holds afterwards. *)
Lemma decode_APIError_only ms s cur saved :
  only_member "message" (json.JString s) ms ->
  decode_APIError (json.JObject ms) cur saved = (mkAPIError s, saved).
Proof.
  intros (pre & key & post & -> & Hkey & Hpre & Hpost).
  cbn [decode_APIError]. rewrite fold_left_app. cbn [fold_left].
  rewrite (decode_APIError_members_frame pre Hpre).
  rewrite (decode_APIError_members_frame post Hpost).
  unfold decode_APIError_member. rewrite Hkey. reflexivity.
Qed.

Lemma decode_Error_only members ms s cur saved :
  only_member "error" (json.JObject ms) members ->
  only_member "message" (json.JString s) ms ->
  Message (APIError (fst (decode_Error (json.JObject members) cur saved))) = s.
Proof.
  intros (pre & key & post & -> & Hkey & Hpre & Hpost) Hms.
  cbn [decode_Error]. rewrite fold_left_app. cbn [fold_left].
  rewrite (decode_members_frame APIError "error" post) by auto using decode_member_APIError.
  destruct (fold_left decode_Error_member pre (cur, saved)) as [cur' saved'].
  unfold decode_Error_member. rewrite Hkey.
  rewrite (decode_APIError_only ms s _ _ Hms). reflexivity.
Qed.

End DecodingMessage.

Lemma Unmarshal_syntax body v :
  json.parse body = None -> Unmarshal body v = (v, Some (jsonError SyntaxError)).
Proof. intros H. unfold Unmarshal. now rewrite H. Qed.

Lemma Unmarshal_parsed body v j :
  json.parse body = Some j ->
  Unmarshal body v
  = (fst (decode_Error j v None), option_map jsonError (snd (decode_Error j v None))).
Proof.
  intros H. unfold Unmarshal. rewrite H.
  now destruct (decode_Error j v None).
Qed.

Lemma Unmarshal_StatusCode body v :
  body_has_member "StatusCode" body = false ->
  StatusCode (fst (Unmarshal body v)) = StatusCode v.
Proof.
  unfold body_has_member. intros Hno.
  destruct (json.parse body) as [j|] eqn:Hparse.
  - rewrite (Unmarshal_parsed _ _ _ Hparse). cbn [fst].
    apply decode_Error_StatusCode. intros members ->. exact Hno.
  - now rewrite (Unmarshal_syntax _ _ Hparse).
Qed.

Lemma Unmarshal_Endpoint body v :
  body_has_member "Endpoint" body = false ->
  Endpoint (fst (Unmarshal body v)) = Endpoint v.
Proof.
  unfold body_has_member. intros Hno.
  destruct (json.parse body) as [j|] eqn:Hparse.
  - rewrite (Unmarshal_parsed _ _ _ Hparse). cbn [fst].
    apply decode_Error_Endpoint. intros members ->. exact Hno.
  - now rewrite (Unmarshal_syntax _ _ Hparse).
Qed.

Lemma Unmarshal_not_found a t s e :
  Unmarshal not_found (mkError a t s e) = (mkError (mkAPIError "nope") t s e, None).
Proof. vm_compute. reflexivity. Qed.

(** ** The formatter *)

Lemma Error_Error_format e :
  Error_Error e
  = "API Error: " +:+ strconv.Itoa (StatusCode e) +:+ " " +:+ Endpoint e +:+ " "
    +:+ Message (APIError e).
Proof.
  unfold Error_Error. cbn [fmt.Sprintf].
  rewrite append_empty_r. reflexivity.
Qed.

(** ** Requests *)

Lemma NewRequest_inl method url body r :
  http.NewRequest method url body = inl r ->
  r = http.mkRequest (if String.eqb method EmptyString then "GET" else method)
        url ∅ body false.
Proof.
  unfold http.NewRequest. repeat case_match; congruence.
Qed.

(** ** Running [Do]

    [Do] is run symbolically: the monad is unfolded, and each [match] the
    run is stuck on is decided from a hypothesis or split in two.  Every
    path through the body ends in a pair of an outcome and a state. *)

Ltac red_run := lazy beta iota zeta delta [fst snd client sent token_calls logged].

Tactic Notation "red_run" "in" hyp(H) :=
  lazy beta iota zeta delta [fst snd client sent token_calls logged] in H.

Ltac unfold_Do :=
  unfold Do, call, mbind, M_bind, mret, M_ret, field, log_Printf, return_, raise,
    call_Token, call_Do; red_run.

Ltac Do_step :=
  match goal with
  | |- context [match ?x with _ => _ end] =>
      lazymatch x with
      | context [match _ with _ => _ end] => fail
      | _ => first [ match goal with H : x = _ |- _ => rewrite H end
                   | destruct x eqn:? ]
      end
  end; red_run.

Ltac sent_facts :=
  repeat match goal with
  | H : ?l = (?l ++ [_])%list |- _ => destruct (app_one_neq _ _ H)
  | H : (?l ++ [?x])%list = (?l ++ [?y])%list |- _ =>
      apply app_one_inj in H; subst
  end.

Ltac red_request :=
  cbn [http.Body http.Close http.URL http.Method http.Header_ http.with_Close
       http.with_Header http.SetBasicAuth oauth2.SetAuthHeader].

(** What [Do] returns once the transport has answered: the part of the body
    after the call of [c.HTTPClient.Do]. *)
Lemma Do_answer method endpoint payload addJsonHeader w hc req resp err :
  HTTPClient (client w) = Some hc ->
  sent (snd (Do method endpoint payload addJsonHeader w)) = (sent w ++ [req])%list ->
  http.Client_Do hc (sent w) req = (resp, err) ->
  fst (Do method endpoint payload addJsonHeader w) =
    match resp with
    | None => Panicked NilPointerDereference
    | Some r =>
        if (400 <=? http.StatusCode r) || (http.StatusCode r <? 200) then
          match io.ReadAll (http.Body_ r) with
          | (_, Some e) => Returned (None, Some e)
          | (body, None) =>
              let '(a, uerr) :=
                Unmarshal body
                  (mkError (mkAPIError EmptyString) EmptyString (http.StatusCode r) endpoint) in
              Returned
                (Some r,
                 Some (bitbucketError
                         match uerr with
                         | Some _ => mkError (mkAPIError body) (Type_ a) (StatusCode a) (Endpoint a)
                         | None => a
                         end))
          end
        else Returned (resp, err)
    end.
Proof.
  intros Hhc Hsent Hdo.
  match goal with |- _ = ?rhs => set (answered := rhs) end.
  destruct (Do method endpoint payload addJsonHeader w) as [out w'] eqn:E.
  destruct w as [c n s l].
  cbn [fst snd client sent token_calls logged] in *. revert E. unfold_Do.
  repeat Do_step.
  all: intros [= <- <-]; red_run in Hsent; sent_facts.
  all: match goal with
       | H : http.Client_Do _ _ _ = (?a, ?b) |- _ =>
           tryif constr_eq H Hdo then fail
           else (let Heq := fresh in
                 pose proof (eq_trans (eq_sym Hdo) H) as Heq; injection Heq as -> ->)
       end.
  all: subst answered; cbv beta iota zeta.
  all: repeat match goal with H : _ = _ |- _ => rewrite H end.
  all: reflexivity.
Qed.

(** What [Do] returns for a response with a failure status whose body was
    read: the response, and the error value left by the decoding. *)
Lemma Do_failed_response method endpoint payload addJsonHeader w hc req resp err body :
  HTTPClient (client w) = Some hc ->
  sent (snd (Do method endpoint payload addJsonHeader w)) = (sent w ++ [req])%list ->
  http.Client_Do hc (sent w) req = (Some resp, err) ->
  http.StatusCode resp < 200 \/ 400 <= http.StatusCode resp ->
  io.ReadAll (http.Body_ resp) = (body, None) ->
  let decoded := Unmarshal body (blank_error (http.StatusCode resp) endpoint) in
  fst (Do method endpoint payload addJsonHeader w)
  = Returned
      (Some resp,
       Some (bitbucketError
               match snd decoded with
               | Some _ =>
                   mkError (mkAPIError body) (Type_ (fst decoded))
                     (StatusCode (fst decoded)) (Endpoint (fst decoded))
               | None => fst decoded
               end)).
Proof.
  intros Hhc Hsent Hdo Hstatus Hread decoded.
  rewrite (Do_answer _ _ _ _ _ _ _ _ _ Hhc Hsent Hdo).
  rewrite (failure_status _ Hstatus), Hread.
  subst decoded. unfold blank_error.
  destruct (Unmarshal body _) as [a uerr]. reflexivity.
Qed.

(** The request [Do] hands to the transport: its body, its content type and
    its [Authorization] values. *)
Lemma Do_request method endpoint payload addJsonHeader w req :
  sent (snd (Do method endpoint payload addJsonHeader w)) = (sent w ++ [req])%list ->
  http.Body req = payload /\
  http.Header_ req !! "Content-Type"
  = (if bool_decide (is_Some payload) && addJsonHeader
     then Some ["application/json"] else None) /\
  match OAuthTokenSource (client w) with
  | Some ts =>
      exists t,
        oauth2.Token_ ts (token_calls w) = (Some t, None) /\
        http.Header_Values (http.Header_ req) "Authorization"
        = [oauth2.Type_ t +:+ " " +:+ oauth2.AccessToken t]
  | None =>
      http.Header_Values (http.Header_ req) "Authorization"
      = (basic_credentials (client w) ++ bearer_credentials (client w))%list
  end.
Proof.
  intros Hsent.
  match goal with |- ?G => set (shape := G) end.
  destruct (Do method endpoint payload addJsonHeader w) as [out w'] eqn:E.
  destruct w as [c n s l].
  cbn [fst snd client sent token_calls logged] in *. revert E. unfold_Do.
  repeat Do_step.
  all: intros [= <- <-]; red_run in Hsent; sent_facts.
  all: subst shape; unfold basic_credentials, bearer_credentials.
  all: repeat match goal with
         | H : http.NewRequest _ _ _ = inl _ |- _ => apply NewRequest_inl in H; subst
         | H : _ = _ |- _ => rewrite H
         end.
  all: red_request.
  all: repeat split; try reflexivity.
  all: eexists; split; [reflexivity|]; red_request; reflexivity.
Qed.

(** [Do] reaches the transport whenever the request can be built, the token
    source (if there is one) yields a token, and there is a transport.  The
    statements below speak of the request [req] which [Do] handed to the
    transport, [sent (snd (Do ...)) = sent w ++ [req]]: this lemma says when
    there is one. *)
Lemma Do_reaches_transport method endpoint payload addJsonHeader w req0 hc :
  http.NewRequest method (BitbucketEndpoint +:+ endpoint) payload = inl req0 ->
  (forall ts, OAuthTokenSource (client w) = Some ts ->
              exists t, oauth2.Token_ ts (token_calls w) = (Some t, None)) ->
  HTTPClient (client w) = Some hc ->
  exists req,
    sent (snd (Do method endpoint payload addJsonHeader w)) = (sent w ++ [req])%list.
Proof.
  intros Hreq Htoken Hhc.
  destruct (Do method endpoint payload addJsonHeader w) as [out [c' n' s' l']] eqn:E.
  destruct w as [c n s l].
  cbn [fst snd client sent token_calls logged] in *.
  destruct (OAuthTokenSource c) as [ts|] eqn:Hts.
  - destruct (Htoken ts eq_refl) as [t Ht]. clear Htoken.
    revert E. unfold_Do. repeat Do_step.
    all: intros E; simplify_eq; eexists; reflexivity.
  - clear Htoken. revert E. unfold_Do. repeat Do_step.
    all: intros E; simplify_eq; eexists; reflexivity.
Qed.

Lemma NewRequest_ok method url body :
  http.validMethod (if String.eqb method EmptyString then "GET" else method) = true ->
  url.Parse url = None ->
  http.NewRequest method url body
  = inl (http.mkRequest (if String.eqb method EmptyString then "GET" else method)
           url ∅ body false).
Proof.
  intros Hmethod Hurl. unfold http.NewRequest. cbv zeta.
  rewrite Hmethod, Hurl. reflexivity.
Qed.

(** A dispatchable call with a valid method hands a request to the
    transport. *)
Lemma Do_sends method endpoint payload addJsonHeader w :
  http.validMethod (if String.eqb method EmptyString then "GET" else method) = true ->
  dispatchable endpoint w ->
  exists req,
    sent (snd (Do method endpoint payload addJsonHeader w)) = (sent w ++ [req])%list.
Proof.
  intros Hmethod (Hurl & Htoken & Hhc).
  destruct (HTTPClient (client w)) as [hc|] eqn:Ehc; [|congruence].
  exact (Do_reaches_transport method endpoint payload addJsonHeader w _ hc
           (NewRequest_ok method _ payload Hmethod Hurl) Htoken Ehc).
Qed.

(** ** Responses with a failure status *)

(** C1, as the code has it.  When the transport answers a request of [Do]
    with a response whose status code is below 200 or at least 400, and the
    body of the response can be read, [Do] returns that response together
    with an API error.  The error's [StatusCode] is the status code of the
    response unless the body is a JSON object with a member named
    [StatusCode], and its [Endpoint] is the requested relative path unless
    the body is a JSON object with a member named [Endpoint]. *)
Theorem Do_failure_status_api_error
  method endpoint payload addJsonHeader w hc req resp err body :
  HTTPClient (client w) = Some hc ->
  sent (snd (Do method endpoint payload addJsonHeader w)) = (sent w ++ [req])%list ->
  http.Client_Do hc (sent w) req = (Some resp, err) ->
  http.StatusCode resp < 200 \/ 400 <= http.StatusCode resp ->
  io.ReadAll (http.Body_ resp) = (body, None) ->
  exists e,
    fst (Do method endpoint payload addJsonHeader w)
    = Returned (Some resp, Some (bitbucketError e)) /\
    (body_has_member "StatusCode" body = false -> StatusCode e = http.StatusCode resp) /\
    (body_has_member "Endpoint" body = false -> Endpoint e = endpoint).
Proof.
  intros Hhc Hsent Hdo Hstatus Hread.
  pose proof (Do_failed_response _ _ _ _ _ _ _ _ _ _ Hhc Hsent Hdo Hstatus Hread) as Hret.
  cbv zeta in Hret.
  destruct (Unmarshal body (blank_error (http.StatusCode resp) endpoint))
    as [a uerr] eqn:Hdec.
  cbn [fst snd] in Hret.
  eexists; split; [exact Hret|].
  assert (Ha : a = fst (Unmarshal body (blank_error (http.StatusCode resp) endpoint)))
    by (rewrite Hdec; reflexivity).
  split; intros Hno.
  - transitivity (StatusCode a); [destruct uerr; reflexivity|].
    rewrite Ha, Unmarshal_StatusCode by exact Hno. reflexivity.
  - transitivity (Endpoint a); [destruct uerr; reflexivity|].
    rewrite Ha, Unmarshal_Endpoint by exact Hno. reflexivity.
Qed.

(** The theorem at a 404 response to [Get "2.0/user"]. *)
Lemma Do_failure_status_api_error_witness :
  exists e,
    fst (Do "GET" "2.0/user" None true (fresh (anonymous (answering 404 not_found))))
    = Returned (Some (answer 404 not_found), Some (bitbucketError e)) /\
    (body_has_member "StatusCode" not_found = false -> StatusCode e = 404) /\
    (body_has_member "Endpoint" not_found = false -> Endpoint e = "2.0/user").
Proof.
  refine (Do_failure_status_api_error "GET" "2.0/user" None true
            (fresh (anonymous (answering 404 not_found))) (answering 404 not_found)
            get_user (answer 404 not_found) None not_found _ _ _ _ _).
  - reflexivity.
  - vm_compute. reflexivity.
  - reflexivity.
  - right. vm_compute. discriminate.
  - reflexivity.
Defined.

(** C1 as the spec states it fails twice.  A response with status 304, which
    is outside [200,299], comes back with a [nil] error.  And a 404 response
    whose body is a JSON object with members [StatusCode] and [Endpoint]
    yields an API error which carries the values of the body, not the status
    code of the response and the requested path. *)
Lemma Do_redirect_status_nil_error :
  (304 < 200 \/ 299 < 304) /\
  fst (Do "GET" "2.0/user" None true (fresh (anonymous (answering 304 EmptyString))))
  = Returned (Some (answer 304 EmptyString), None) /\
  fst (Do "GET" "2.0/user" None true
         (fresh (anonymous (answering 404 (js "{'StatusCode':200,'Endpoint':'elsewhere'}")))))
  = Returned
      (Some (answer 404 (js "{'StatusCode':200,'Endpoint':'elsewhere'}")),
       Some (bitbucketError (mkError (mkAPIError EmptyString) EmptyString 200 "elsewhere"))).
Proof.
  split; [right; lia|]. split; vm_compute; reflexivity.
Qed.

(** C10.  When the transport answers a request of [Do] with a response whose
    status is a failure status and reading its body fails, [Do] returns a
    [nil] response together with the read error; when the body can be read,
    [Do] returns the response together with an API error. *)
Theorem Do_unreadable_body method endpoint payload addJsonHeader w hc req resp err :
  HTTPClient (client w) = Some hc ->
  sent (snd (Do method endpoint payload addJsonHeader w)) = (sent w ++ [req])%list ->
  http.Client_Do hc (sent w) req = (Some resp, err) ->
  http.StatusCode resp < 200 \/ 400 <= http.StatusCode resp ->
  (forall partial rerr,
     io.ReadAll (http.Body_ resp) = (partial, Some rerr) ->
     fst (Do method endpoint payload addJsonHeader w) = Returned (None, Some rerr)) /\
  (forall body,
     io.ReadAll (http.Body_ resp) = (body, None) ->
     exists e,
       fst (Do method endpoint payload addJsonHeader w)
       = Returned (Some resp, Some (bitbucketError e))).
Proof.
  intros Hhc Hsent Hdo Hstatus. split.
  - intros partial rerr Hread.
    rewrite (Do_answer _ _ _ _ _ _ _ _ _ Hhc Hsent Hdo).
    rewrite (failure_status _ Hstatus), Hread. reflexivity.
  - intros body Hread. eexists.
    exact (Do_failed_response _ _ _ _ _ _ _ _ _ _ Hhc Hsent Hdo Hstatus Hread).
Qed.

(** The theorem at a 502 response whose body breaks off. *)
Lemma Do_unreadable_body_witness :
  fst (Do "GET" "2.0/user" None true
         (fresh (anonymous (truncating 502 (errorString "unexpected EOF")))))
  = Returned (None, Some (errorString "unexpected EOF")).
Proof.
  refine (proj1 (Do_unreadable_body "GET" "2.0/user" None true
                   (fresh (anonymous (truncating 502 (errorString "unexpected EOF"))))
                   (truncating 502 (errorString "unexpected EOF")) get_user
                   (http.mkResponse 502
                      (io.mkReader EmptyString (Some (errorString "unexpected EOF"))))
                   None _ _ _ _)
            EmptyString (errorString "unexpected EOF") _).
  - reflexivity.
  - vm_compute. reflexivity.
  - reflexivity.
  - right. vm_compute. discriminate.
  - reflexivity.
Defined.

(** C4, as the code has it.  For a failed response whose body was read, the
    message of the API error is the raw body whenever [json.Unmarshal]
    reports an error: the body is not well-formed JSON, or it is a JSON
    value other than an object or [null], or a member has the wrong kind for
    its field.  When [json.Unmarshal] reports none and the body is an
    object, the message is empty if the object has no [error] member, and it
    is the string of [error.message] if the object has one [error] member,
    an object with one [message] member. *)
Theorem Do_message_of_api_error
  method endpoint payload addJsonHeader w hc req resp err body :
  HTTPClient (client w) = Some hc ->
  sent (snd (Do method endpoint payload addJsonHeader w)) = (sent w ++ [req])%list ->
  http.Client_Do hc (sent w) req = (Some resp, err) ->
  http.StatusCode resp < 200 \/ 400 <= http.StatusCode resp ->
  io.ReadAll (http.Body_ resp) = (body, None) ->
  exists e,
    fst (Do method endpoint payload addJsonHeader w)
    = Returned (Some resp, Some (bitbucketError e)) /\
    (snd (Unmarshal body (blank_error (http.StatusCode resp) endpoint)) <> None ->
     Message (APIError e) = body) /\
    (json.parse body = None -> Message (APIError e) = body) /\
    (forall j, json.parse body = Some j -> kind j <> "object" -> kind j <> "null" ->
               Message (APIError e) = body) /\
    (snd (Unmarshal body (blank_error (http.StatusCode resp) endpoint)) = None ->
     forall members,
       json.parse body = Some (json.JObject members) ->
       (has_member "error" members = false -> Message (APIError e) = EmptyString) /\
       (forall ms s,
          only_member "error" (json.JObject ms) members ->
          only_member "message" (json.JString s) ms ->
          Message (APIError e) = s)).
Proof.
  intros Hhc Hsent Hdo Hstatus Hread.
  pose proof (Do_failed_response _ _ _ _ _ _ _ _ _ _ Hhc Hsent Hdo Hstatus Hread) as Hret.
  cbv zeta in Hret.
  set (blank := blank_error (http.StatusCode resp) endpoint) in *.
  assert (Hfailed : snd (Unmarshal body blank) <> None ->
            Message (APIError
              match snd (Unmarshal body blank) with
              | Some _ =>
                  mkError (mkAPIError body) (Type_ (fst (Unmarshal body blank)))
                    (StatusCode (fst (Unmarshal body blank)))
                    (Endpoint (fst (Unmarshal body blank)))
              | None => fst (Unmarshal body blank)
              end) = body).
  { destruct (snd (Unmarshal body blank)); [reflexivity|congruence]. }
  eexists. split; [exact Hret|]. split; [exact Hfailed|]. split; [|split].
  - intros Hparse. apply Hfailed. rewrite (Unmarshal_syntax _ _ Hparse). discriminate.
  - intros j Hparse Hobj Hnull. apply Hfailed.
    rewrite (Unmarshal_parsed _ _ _ Hparse).
    pose proof (decode_Error_mismatch j blank Hobj Hnull) as Hm.
    cbn [snd]. destruct (snd (decode_Error j blank None)); [discriminate|congruence].
  - intros Hok members Hparse. rewrite Hok.
    rewrite (Unmarshal_parsed _ _ _ Hparse). cbn [fst]. split.
    + intros Hno. now rewrite decode_Error_no_error.
    + intros ms s Herr Hmsg. now apply decode_Error_only with (ms := ms).
Qed.

(** The theorem at a 404 response with the body
    [{"error":{"message":"nope"}}]: the message is [nope]. *)
Lemma Do_message_of_api_error_witness :
  exists e,
    fst (Do "GET" "2.0/user" None true (fresh (anonymous (answering 404 not_found))))
    = Returned (Some (answer 404 not_found), Some (bitbucketError e)) /\
    Message (APIError e) = "nope".
Proof.
  destruct (Do_message_of_api_error "GET" "2.0/user" None true
              (fresh (anonymous (answering 404 not_found))) (answering 404 not_found)
              get_user (answer 404 not_found) None not_found)
    as (e & Hret & _ & _ & _ & Hdecoded).
  - reflexivity.
  - vm_compute. reflexivity.
  - reflexivity.
  - right. vm_compute. discriminate.
  - reflexivity.
  - exists e. split; [exact Hret|].
    refine (proj2 (Hdecoded _ [("error", json.JObject [("message", json.JString "nope")])] _)
              [("message", json.JString "nope")] "nope" _ _).
    + vm_compute. reflexivity.
    + vm_compute. reflexivity.
    + exists [], "error", []. repeat split.
    + exists [], "message", []. repeat split.
Defined.

(** C4 as the spec states it fails twice.  A body of another shape which is
    well-formed JSON, [{"message":"Repository not found"}], leaves the
    message empty: its raw text does not become the message.  And a body
    that parses as JSON and has a nested [error.message], but a [type]
    member which is a number, yields the raw body as the message, not the
    nested [nope]. *)
Lemma Do_message_other_shapes :
  fst (Do "GET" "2.0/user" None true
         (fresh (anonymous (answering 404 (js "{'message':'Repository not found'}")))))
  = Returned
      (Some (answer 404 (js "{'message':'Repository not found'}")),
       Some (bitbucketError (mkError (mkAPIError EmptyString) EmptyString 404 "2.0/user"))) /\
  fst (Do "GET" "2.0/user" None true
         (fresh (anonymous (answering 404 (js "{'error':{'message':'nope'},'type':5}")))))
  = Returned
      (Some (answer 404 (js "{'error':{'message':'nope'},'type':5}")),
       Some (bitbucketError
               (mkError (mkAPIError (js "{'error':{'message':'nope'},'type':5}"))
                  EmptyString 404 "2.0/user"))).
Proof. split; vm_compute; reflexivity. Qed.

(** C7.  The formatted string of an API error is [API Error: ], the status
    code in decimal, a space, the endpoint, a space and the message.  For a
    404 response with the body [{"error":{"message":"nope"}}] on the path
    [p], the message of the error is [nope] and its formatted string is
    [API Error: 404 p nope]. *)
Theorem Error_string_format :
  (forall e,
     Error_Error e
     = "API Error: " +:+ strconv.Itoa (StatusCode e) +:+ " " +:+ Endpoint e +:+ " "
       +:+ Message (APIError e)) /\
  (forall method p payload addJsonHeader w hc req resp err,
     HTTPClient (client w) = Some hc ->
     sent (snd (Do method p payload addJsonHeader w)) = (sent w ++ [req])%list ->
     http.Client_Do hc (sent w) req = (Some resp, err) ->
     http.StatusCode resp = 404 ->
     io.ReadAll (http.Body_ resp) = (not_found, None) ->
     exists e,
       fst (Do method p payload addJsonHeader w)
       = Returned (Some resp, Some (bitbucketError e)) /\
       Message (APIError e) = "nope" /\
       Error_Error e = "API Error: 404 " +:+ p +:+ " nope").
Proof.
  split; [exact Error_Error_format|].
  intros method p payload addJsonHeader w hc req resp err Hhc Hsent Hdo Hstatus Hread.
  assert (Hfail : http.StatusCode resp < 200 \/ 400 <= http.StatusCode resp) by lia.
  pose proof (Do_failed_response _ _ _ _ _ _ _ _ _ _ Hhc Hsent Hdo Hfail Hread) as Hret.
  cbv zeta in Hret. unfold blank_error in Hret.
  rewrite Unmarshal_not_found in Hret. cbn [fst snd] in Hret.
  eexists. split; [exact Hret|]. split; [reflexivity|].
  rewrite Error_Error_format. cbn [StatusCode Endpoint APIError Message].
  rewrite Hstatus. reflexivity.
Qed.

(** The theorem at [Get "2.0/repositories/acme/site"]. *)
Lemma Error_string_format_witness :
  exists e,
    fst (Do "GET" "2.0/repositories/acme/site" None true
           (fresh (anonymous (answering 404 not_found))))
    = Returned (Some (answer 404 not_found), Some (bitbucketError e)) /\
    Message (APIError e) = "nope" /\
    Error_Error e = "API Error: 404 2.0/repositories/acme/site nope".
Proof.
  refine (proj2 Error_string_format "GET" "2.0/repositories/acme/site" None true
            (fresh (anonymous (answering 404 not_found))) (answering 404 not_found)
            (http.mkRequest "GET" "https://api.bitbucket.org/2.0/repositories/acme/site"
               ∅ None true)
            (answer 404 not_found) None _ _ _ _ _).
  - reflexivity.
  - vm_compute. reflexivity.
  - reflexivity.
  - reflexivity.
  - reflexivity.
Defined.

(** ** Responses with a success status *)

(** C6.  When the transport answers a request of [Do] with a response and no
    error, and the status code of the response lies in [200,299], [Do]
    returns that response together with a [nil] error, whatever the body
    holds. *)
Theorem Do_success_status method endpoint payload addJsonHeader w hc req resp :
  HTTPClient (client w) = Some hc ->
  sent (snd (Do method endpoint payload addJsonHeader w)) = (sent w ++ [req])%list ->
  http.Client_Do hc (sent w) req = (Some resp, None) ->
  200 <= http.StatusCode resp <= 299 ->
  fst (Do method endpoint payload addJsonHeader w) = Returned (Some resp, None).
Proof.
  intros Hhc Hsent Hdo Hstatus.
  rewrite (Do_answer _ _ _ _ _ _ _ _ _ Hhc Hsent Hdo).
  rewrite passing_status by lia. reflexivity.
Qed.

(** The theorem at a 204 response whose body is not JSON. *)
Lemma Do_success_status_witness :
  fst (Do "GET" "2.0/user" None true (fresh (anonymous (answering 204 "not json"))))
  = Returned (Some (answer 204 "not json"), None).
Proof.
  refine (Do_success_status "GET" "2.0/user" None true
            (fresh (anonymous (answering 204 "not json"))) (answering 204 "not json")
            get_user (answer 204 "not json") _ _ _ _).
  - reflexivity.
  - vm_compute. reflexivity.
  - reflexivity.
  - vm_compute. split; discriminate.
Defined.

(** ** Errors of the collaborators *)

(** C2: what the code does where the claim asks for the transport error.
    The transport fails with no response; [Do] logs the pair, reads
    [resp.StatusCode] through the [nil] response and panics.  The error of
    the transport never reaches the caller. *)
Theorem Do_transport_error_panics :
  fst (Do "GET" "2.0/user" None true
         (fresh (anonymous (unreachable (errorString "dial tcp: i/o timeout")))))
  = Panicked NilPointerDereference.
Proof. vm_compute. reflexivity. Qed.

(** C5.  When a token source is configured and its call fails, the transport
    is not called, and [Do] returns the error of the token source once it
    has asked the source for a token, which it does whenever the request
    can be built.  ([Do] builds the request first: when that fails the
    source is not asked.) *)
Theorem Do_credential_error method endpoint payload addJsonHeader w ts tok e :
  OAuthTokenSource (client w) = Some ts ->
  oauth2.Token_ ts (token_calls w) = (tok, Some e) ->
  sent (snd (Do method endpoint payload addJsonHeader w)) = sent w /\
  (token_calls (snd (Do method endpoint payload addJsonHeader w)) = S (token_calls w) ->
   fst (Do method endpoint payload addJsonHeader w) = Returned (None, Some e)) /\
  (forall req0,
     http.NewRequest method (BitbucketEndpoint +:+ endpoint) payload = inl req0 ->
     fst (Do method endpoint payload addJsonHeader w) = Returned (None, Some e)).
Proof.
  intros Hts Htoken.
  destruct (Do method endpoint payload addJsonHeader w) as [out [c' n' s' l']] eqn:E.
  destruct w as [c n s l].
  cbn [fst snd client sent token_calls logged] in *. revert E. unfold_Do.
  repeat Do_step.
  all: intros E; simplify_eq; split; [reflexivity|]; split.
  all: first [ intros Hasked; lia | intros req0 Hreq; congruence | reflexivity ].
Qed.

(** The theorem at a client whose token source has expired. *)
Lemma Do_credential_error_witness :
  sent (snd (Do "GET" "2.0/user" None true
               (fresh (mkBitbucketClient None None None (Some expired)
                         (Some (answering 200 EmptyString))))))
  = [] /\
  fst (Do "GET" "2.0/user" None true
         (fresh (mkBitbucketClient None None None (Some expired)
                   (Some (answering 200 EmptyString)))))
  = Returned (None, Some (errorString "oauth2: cannot fetch token")).
Proof.
  destruct (Do_credential_error "GET" "2.0/user" None true
              (fresh (mkBitbucketClient None None None (Some expired)
                        (Some (answering 200 EmptyString))))
              expired None (errorString "oauth2: cannot fetch token"))
    as (Hsent & Hasked & Hbuilt).
  - reflexivity.
  - reflexivity.
  - split; [exact Hsent|]. apply Hasked. vm_compute. reflexivity.
Defined.

(** ** The outbound request *)




(** C8.  Each helper is [Do] at fixed arguments.  A request sent by [Get],
    [PutOnly] or [Delete] has no body.  A request sent by [PostNonJson] has
    no [Content-Type] header, with or without a body.  A request sent by
    [Post] or [Put] with a body has the [Content-Type] [application/json].
    And a dispatchable call of a helper does send its request: [Post] and
    [Put] with a body send one with that body and the JSON content type,
    [PostNonJson] with a body sends one with that body and no content type,
    [Get], [PutOnly] and [Delete] send one without a body. *)
Theorem helpers_delegate_to_Do :
  (forall endpoint, Get endpoint = Do "GET" endpoint None true) /\
  (forall endpoint body, Post endpoint body = Do "POST" endpoint body true) /\
  (forall endpoint body, PostNonJson endpoint body = Do "POST" endpoint body false) /\
  (forall endpoint body, Put endpoint body = Do "PUT" endpoint body true) /\
  (forall endpoint, PutOnly endpoint = Do "PUT" endpoint None true) /\
  (forall endpoint, Delete endpoint = Do "DELETE" endpoint None true) /\
  (forall endpoint w req,
     sent (snd (Get endpoint w)) = (sent w ++ [req])%list \/
     sent (snd (PutOnly endpoint w)) = (sent w ++ [req])%list \/
     sent (snd (Delete endpoint w)) = (sent w ++ [req])%list ->
     http.Body req = None) /\
  (forall endpoint body w req,
     sent (snd (PostNonJson endpoint body w)) = (sent w ++ [req])%list ->
     http.Header_ req !! "Content-Type" = None) /\
  (forall endpoint body w req,
     sent (snd (Post endpoint (Some body) w)) = (sent w ++ [req])%list \/
     sent (snd (Put endpoint (Some body) w)) = (sent w ++ [req])%list ->
     http.Header_ req !! "Content-Type" = Some ["application/json"]) /\
  (forall endpoint body w,
     dispatchable endpoint w ->
     (exists req,
        sent (snd (Post endpoint (Some body) w)) = (sent w ++ [req])%list /\
        http.Body req = Some body /\
        http.Header_ req !! "Content-Type" = Some ["application/json"]) /\
     (exists req,
        sent (snd (Put endpoint (Some body) w)) = (sent w ++ [req])%list /\
        http.Body req = Some body /\
        http.Header_ req !! "Content-Type" = Some ["application/json"]) /\
     (exists req,
        sent (snd (PostNonJson endpoint (Some body) w)) = (sent w ++ [req])%list /\
        http.Body req = Some body /\
        http.Header_ req !! "Content-Type" = None) /\
     (exists req,
        sent (snd (Get endpoint w)) = (sent w ++ [req])%list /\ http.Body req = None) /\
     (exists req,
        sent (snd (PutOnly endpoint w)) = (sent w ++ [req])%list /\ http.Body req = None) /\
     (exists req,
        sent (snd (Delete endpoint w)) = (sent w ++ [req])%list /\ http.Body req = None)).
Proof.
  do 6 (split; [reflexivity|]). split; [|split; [|split]].
  - intros endpoint w req H.
    unfold Get, PutOnly, Delete in H.
    destruct H as [H|[H|H]]; exact (proj1 (Do_request _ _ _ _ _ _ H)).
  - intros endpoint body w req H. unfold PostNonJson in H.
    rewrite (proj1 (proj2 (Do_request _ _ _ _ _ _ H))).
    now rewrite andb_false_r.
  - intros endpoint body w req H. unfold Post, Put in H.
    destruct H as [H|H];
      rewrite (proj1 (proj2 (Do_request _ _ _ _ _ _ H))); reflexivity.
  - intros endpoint body w Hd. unfold Post, Put, PostNonJson, Get, PutOnly, Delete.
    destruct (Do_sends "POST" endpoint (Some body) true w eq_refl Hd) as [r1 H1].
    destruct (Do_sends "PUT" endpoint (Some body) true w eq_refl Hd) as [r2 H2].
    destruct (Do_sends "POST" endpoint (Some body) false w eq_refl Hd) as [r3 H3].
    destruct (Do_sends "GET" endpoint None true w eq_refl Hd) as [r4 H4].
    destruct (Do_sends "PUT" endpoint None true w eq_refl Hd) as [r5 H5].
    destruct (Do_sends "DELETE" endpoint None true w eq_refl Hd) as [r6 H6].
    split; [|split; [|split; [|split; [|split]]]].
    + exists r1. split; [exact H1|]. split; [exact (proj1 (Do_request _ _ _ _ _ _ H1))|].
      rewrite (proj1 (proj2 (Do_request _ _ _ _ _ _ H1))). reflexivity.
    + exists r2. split; [exact H2|]. split; [exact (proj1 (Do_request _ _ _ _ _ _ H2))|].
      rewrite (proj1 (proj2 (Do_request _ _ _ _ _ _ H2))). reflexivity.
    + exists r3. split; [exact H3|]. split; [exact (proj1 (Do_request _ _ _ _ _ _ H3))|].
      rewrite (proj1 (proj2 (Do_request _ _ _ _ _ _ H3))). reflexivity.
    + exists r4. split; [exact H4|]. exact (proj1 (Do_request _ _ _ _ _ _ H4)).
    + exists r5. split; [exact H5|]. exact (proj1 (Do_request _ _ _ _ _ _ H5)).
    + exists r6. split; [exact H6|]. exact (proj1 (Do_request _ _ _ _ _ _ H6)).
Qed.

(** The theorem at a client without credentials: [Post] with the body [{}]
    sends it with the JSON content type, [PostNonJson] sends it without a
    content type, and [Delete] sends a request without a body. *)
Lemma helpers_delegate_to_Do_witness :
  (exists req,
     sent (snd (Post "2.0/snippets" (Some "{}")
                  (fresh (anonymous (answering 201 EmptyString)))))
     = [req] /\
     http.Body req = Some "{}" /\
     http.Header_ req !! "Content-Type" = Some ["application/json"]) /\
  (exists req,
     sent (snd (PostNonJson "2.0/snippets" (Some "{}")
                  (fresh (anonymous (answering 201 EmptyString)))))
     = [req] /\
     http.Body req = Some "{}" /\
     http.Header_ req !! "Content-Type" = None) /\
  (exists req,
     sent (snd (Delete "2.0/snippets" (fresh (anonymous (answering 201 EmptyString)))))
     = [req] /\
     http.Body req = None).
Proof.
  destruct helpers_delegate_to_Do as (_ & _ & _ & _ & _ & _ & _ & _ & _ & Hsends).
  destruct (Hsends "2.0/snippets" "{}" (fresh (anonymous (answering 201 EmptyString))))
    as (Hpost & _ & Hplain & _ & _ & Hdelete).
  - split; [vm_compute; reflexivity|]. split; [|discriminate].
    intros ts Hts. discriminate Hts.
  - split; [exact Hpost|]. split; [exact Hplain|exact Hdelete].
Defined.

(** ** The client *)

(** C9.  A call of [Do] leaves the [Client] struct as it was: [Username],
    [Password], [OAuthToken], [OAuthTokenSource] and [HTTPClient] hold after
    the call what they held before it, however the call ends. *)
Theorem Do_keeps_client method endpoint payload addJsonHeader w :
  client (snd (Do method endpoint payload addJsonHeader w)) = client w.
Proof.
  destruct (Do method endpoint payload addJsonHeader w) as [out [c' n' s' l']] eqn:E.
  destruct w as [c n s l].
  cbn [fst snd client sent token_calls logged] in *. revert E. unfold_Do.
  repeat Do_step.
  all: intros E; simplify_eq; reflexivity.
Qed.

(** * Further properties of [Do] and the helpers *)

(** ** More on the outbound request *)

Lemma canonical_Authorization : http.CanonicalMIMEHeaderKey "Authorization" = "Authorization".
Proof. reflexivity. Qed.

Lemma canonical_Content_Type : http.CanonicalMIMEHeaderKey "Content-Type" = "Content-Type".
Proof. reflexivity. Qed.

Ltac red_header :=
  unfold http.Header_Values, http.Header_Add, http.Header_Set;
  rewrite ?canonical_Authorization, ?canonical_Content_Type;
  repeat first [ rewrite lookup_insert_ne by congruence | rewrite lookup_empty ].

(** The rest of the request [Do] hands to the transport: its URL, its
    method, its [Close] flag, and the headers it does not have. *)
Lemma Do_request_shape method endpoint payload addJsonHeader w req :
  sent (snd (Do method endpoint payload addJsonHeader w)) = (sent w ++ [req])%list ->
  http.URL req = BitbucketEndpoint +:+ endpoint /\
  http.Method req = (if String.eqb method EmptyString then "GET" else method) /\
  http.Close req = true /\
  (forall key, key <> "Authorization" -> key <> "Content-Type" ->
               http.Header_ req !! key = None) /\
  (OAuthTokenSource (client w) = None ->
   basic_credentials (client w) = [] -> bearer_credentials (client w) = [] ->
   http.Header_ req !! "Authorization" = None).
Proof.
  intros Hsent.
  match goal with |- ?G => set (shape := G) end.
  destruct (Do method endpoint payload addJsonHeader w) as [out w'] eqn:E.
  destruct w as [c n s l].
  cbn [fst snd client sent token_calls logged] in *. revert E. unfold_Do.
  repeat Do_step.
  all: intros [= <- <-]; red_run in Hsent; sent_facts.
  all: subst shape; unfold basic_credentials, bearer_credentials.
  all: repeat match goal with
         | H : http.NewRequest _ _ _ = inl _ |- _ => apply NewRequest_inl in H; subst
         | H : _ = _ |- _ => rewrite H
         end.
  all: red_request.
  all: split; [reflexivity|]; split; [reflexivity|]; split; [reflexivity|]; split.
  all: try (intros key Hk1 Hk2; red_header; reflexivity).
  all: intros; discriminate.
Qed.

(** ** More on decoding *)


Section DecodingMore.

Implicit Types (members : list (string * json.value)) (st : Error * option json_error).

Lemma decode_member_Type st m :
  names_field "type" (fst m) = false ->
  Type_ (fst (decode_Error_member st m)) = Type_ (fst st).
Proof.
  destruct st as [cur saved], m as [key v]. cbn [fst]. intros Hkey.
  unfold decode_Error_member. rewrite Hkey.
  repeat case_match; reflexivity.
Qed.

(** A member which selects no field changes nothing, not even the error
    kept aside. *)
Lemma decode_member_unknown st m :
  names_field "error" (fst m) = false -> names_field "type" (fst m) = false ->
  names_field "StatusCode" (fst m) = false -> names_field "Endpoint" (fst m) = false ->
  decode_Error_member st m = st.
Proof.
  destruct st as [cur saved], m as [key v]. cbn [fst]. intros H1 H2 H3 H4.
  unfold decode_Error_member. now rewrite H1, H2, H3, H4.
Qed.

Lemma decode_members_unknown members :
  has_known_member members = false ->
  forall st, fold_left decode_Error_member members st = st.
Proof.
  unfold has_known_member.
  induction members as [|m members IH]; intros Hno st; [reflexivity|].
  cbn [has_member existsb] in Hno.
  repeat (apply orb_false_elim in Hno as [Hno ?]).
  repeat match goal with H : _ || _ = false |- _ => apply orb_false_elim in H as [? ?] end.
  cbn [fold_left]. rewrite decode_member_unknown by assumption.
  apply IH. unfold has_member.
  repeat (apply orb_false_intro); assumption.
Qed.

(** The only [type] member, a string, is what the field holds afterwards,
    whatever the other members store. *)
Lemma decode_Error_only_type members s cur saved :
  only_member "type" (json.JString s) members ->
  Type_ (fst (decode_Error (json.JObject members) cur saved)) = s.
Proof.
  intros (pre & key & post & -> & Hkey & Hpre & Hpost).
  cbn [decode_Error]. rewrite fold_left_app. cbn [fold_left].
  rewrite (decode_members_frame Type_ "type" post) by auto using decode_member_Type.
  destruct (fold_left decode_Error_member pre (cur, saved)) as [cur' saved'].
  unfold decode_Error_member.
  replace (names_field "error" key) with false
    by (symmetry; revert Hkey; unfold names_field, strings.EqualFold;
        intros Hkey; apply String.eqb_eq in Hkey; rewrite Hkey; reflexivity).
  rewrite Hkey. reflexivity.
Qed.

End DecodingMore.

(** ** What a call returns and calls *)

Lemma passing_status_inv status :
  (400 <=? status) || (status <? 200) = false -> 200 <= status < 400.
Proof. intros H. apply orb_false_iff in H as [H1 H2]. lia. Qed.

(** X1.  What [Do] returns is never a [nil] response with a [nil] error.  A
    [nil] error comes only with a response whose status code lies in
    [200,399], and a returned response with a status code below 200 or of
    400 and above always comes with an API error. *)
Theorem Do_result_invariant method endpoint payload addJsonHeader w resp err :
  fst (Do method endpoint payload addJsonHeader w) = Returned (resp, err) ->
  (resp = None -> err <> None) /\
  (forall r, resp = Some r -> err = None -> 200 <= http.StatusCode r < 400) /\
  (forall r, resp = Some r ->
             http.StatusCode r < 200 \/ 400 <= http.StatusCode r ->
             exists e, err = Some (bitbucketError e)).
Proof.
  destruct (Do method endpoint payload addJsonHeader w) as [out [c' n' s' l']] eqn:E.
  destruct w as [c n s l].
  cbn [fst snd client sent token_calls logged] in *. revert E. unfold_Do.
  repeat Do_step.
  all: intros E Hout; simplify_eq.
  all: try match goal with
         | H : (400 <=? _) || (_ <? 200) = false |- _ => apply passing_status_inv in H
         end.
  all: split; [intros; congruence|].
  all: split; intros ? ? ?; simplify_eq; first [lia | eexists; reflexivity].
Qed.

(** X2.  One call of [Do] hands at most one request to the transport and
    asks the token source at most once; the requests recorded before the
    call stay as they are, and without a token source none is asked. *)
Theorem Do_calls_collaborators_once method endpoint payload addJsonHeader w :
  (sent (snd (Do method endpoint payload addJsonHeader w)) = sent w \/
   exists req,
     sent (snd (Do method endpoint payload addJsonHeader w)) = (sent w ++ [req])%list) /\
  (token_calls (snd (Do method endpoint payload addJsonHeader w)) = token_calls w \/
   token_calls (snd (Do method endpoint payload addJsonHeader w)) = S (token_calls w)) /\
  (OAuthTokenSource (client w) = None ->
   token_calls (snd (Do method endpoint payload addJsonHeader w)) = token_calls w).
Proof.
  destruct (Do method endpoint payload addJsonHeader w) as [out [c' n' s' l']] eqn:E.
  destruct w as [c n s l].
  cbn [fst snd client sent token_calls logged] in *. revert E. unfold_Do.
  repeat Do_step.
  all: intros E; simplify_eq.
  all: split; [first [left; reflexivity | right; eexists; reflexivity]|].
  all: split; [first [left; reflexivity | right; reflexivity]|].
  all: first [reflexivity | discriminate].
Qed.

(** X3.  When the request cannot be built (the method is not a token, or
    the URL does not parse), [Do] returns a [nil] response with the error of
    [http.NewRequest]; it asks no token source and calls no transport. *)
Theorem Do_construction_error method endpoint payload addJsonHeader w err :
  http.NewRequest method (BitbucketEndpoint +:+ endpoint) payload = inr err ->
  fst (Do method endpoint payload addJsonHeader w) = Returned (None, Some err) /\
  sent (snd (Do method endpoint payload addJsonHeader w)) = sent w /\
  token_calls (snd (Do method endpoint payload addJsonHeader w)) = token_calls w.
Proof.
  intros Hreq.
  destruct (Do method endpoint payload addJsonHeader w) as [out [c' n' s' l']] eqn:E.
  destruct w as [c n s l].
  cbn [fst snd client sent token_calls logged] in *. revert E. unfold_Do.
  repeat Do_step.
  all: intros E; simplify_eq; repeat split.
Qed.

(** X4.  With no transport configured ([HTTPClient] is [nil]), a call whose
    request can be built and whose token source, if any, yields a token ends
    in a nil pointer dereference; nothing is sent. *)
Theorem Do_without_transport_panics method endpoint payload addJsonHeader w req0 :
  HTTPClient (client w) = None ->
  http.NewRequest method (BitbucketEndpoint +:+ endpoint) payload = inl req0 ->
  (forall ts, OAuthTokenSource (client w) = Some ts ->
              exists t, oauth2.Token_ ts (token_calls w) = (Some t, None)) ->
  fst (Do method endpoint payload addJsonHeader w) = Panicked NilPointerDereference /\
  sent (snd (Do method endpoint payload addJsonHeader w)) = sent w.
Proof.
  intros Hhc Hreq Htoken.
  destruct (Do method endpoint payload addJsonHeader w) as [out [c' n' s' l']] eqn:E.
  destruct w as [c n s l].
  cbn [fst snd client sent token_calls logged] in *.
  destruct (OAuthTokenSource c) as [ts|] eqn:Hts.
  - destruct (Htoken ts eq_refl) as [t Ht]. clear Htoken.
    revert E. unfold_Do. repeat Do_step.
    all: intros E; simplify_eq; split; reflexivity.
  - clear Htoken. revert E. unfold_Do. repeat Do_step.
    all: intros E; simplify_eq; split; reflexivity.
Qed.

(** X14.  Every call of [Do] appends to the log, first the line with the
    method and the absolute URL; when a payload is present the payload is
    logged as it is. *)
Theorem Do_logs_request_and_payload method endpoint payload addJsonHeader w :
  exists rest,
    logged (snd (Do method endpoint payload addJsonHeader w))
    = (logged w
       ++ ("[DEBUG] Sending request to %s %s",
           [LogStr method; LogStr (BitbucketEndpoint +:+ endpoint)]) :: rest)%list /\
    (forall body, payload = Some body ->
                  In ("[DEBUG] With payload %s", [LogStr body]) rest).
Proof.
  destruct (Do method endpoint payload addJsonHeader w) as [out [c' n' s' l']] eqn:E.
  destruct w as [c n s l].
  cbn [fst snd client sent token_calls logged] in *. revert E. unfold_Do.
  repeat Do_step.
  all: intros E; simplify_eq.
  all: rewrite <- ?app_assoc; cbn [app].
  all: eexists; split; [reflexivity|].
  all: intros body Hbody; simplify_eq; left; reflexivity.
Qed.

(** ** More on responses *)



(** X9.  A response whose status code lies in [200,399] is passed through:
    [Do] returns it together with whatever error the transport returned with
    it, so a 3xx response counts as a success and the error of a stopped
    redirect reaches the caller. *)
Theorem Do_passes_through method endpoint payload addJsonHeader w hc req resp err :
  HTTPClient (client w) = Some hc ->
  sent (snd (Do method endpoint payload addJsonHeader w)) = (sent w ++ [req])%list ->
  http.Client_Do hc (sent w) req = (Some resp, err) ->
  200 <= http.StatusCode resp < 400 ->
  fst (Do method endpoint payload addJsonHeader w) = Returned (Some resp, err).
Proof.
  intros Hhc Hsent Hdo Hstatus.
  rewrite (Do_answer _ _ _ _ _ _ _ _ _ Hhc Hsent Hdo).
  rewrite passing_status by lia. reflexivity.
Qed.

Lemma Do_passes_through_witness :
  fst (Do "GET" "2.0/user" None true
         (fresh (anonymous (stopping 301 (errorString "stopped after 10 redirects")))))
  = Returned (Some (answer 301 EmptyString),
              Some (errorString "stopped after 10 redirects")).
Proof.
  refine (Do_passes_through "GET" "2.0/user" None true
            (fresh (anonymous (stopping 301 (errorString "stopped after 10 redirects"))))
            (stopping 301 (errorString "stopped after 10 redirects"))
            get_user (answer 301 EmptyString)
            (Some (errorString "stopped after 10 redirects")) _ _ _ _).
  - reflexivity.
  - vm_compute. reflexivity.
  - reflexivity.
  - vm_compute. split; [discriminate|reflexivity].
Defined.

(** X10.  For a failed response whose body is not well-formed JSON, the API
    error is exactly the status code of the response, the requested path,
    an empty type and the raw body as message; its formatted string ends
    with the raw body. *)
Theorem Do_malformed_body_error
  method endpoint payload addJsonHeader w hc req resp err body :
  HTTPClient (client w) = Some hc ->
  sent (snd (Do method endpoint payload addJsonHeader w)) = (sent w ++ [req])%list ->
  http.Client_Do hc (sent w) req = (Some resp, err) ->
  http.StatusCode resp < 200 \/ 400 <= http.StatusCode resp ->
  io.ReadAll (http.Body_ resp) = (body, None) ->
  json.parse body = None ->
  fst (Do method endpoint payload addJsonHeader w)
  = Returned
      (Some resp,
       Some (bitbucketError
               (mkError (mkAPIError body) EmptyString (http.StatusCode resp) endpoint))) /\
  Error_Error (mkError (mkAPIError body) EmptyString (http.StatusCode resp) endpoint)
  = "API Error: " +:+ strconv.Itoa (http.StatusCode resp) +:+ " " +:+ endpoint
    +:+ " " +:+ body.
Proof.
  intros Hhc Hsent Hdo Hstatus Hread Hparse. split.
  - pose proof (Do_failed_response _ _ _ _ _ _ _ _ _ _ Hhc Hsent Hdo Hstatus Hread) as Hret.
    cbv zeta in Hret. rewrite (Unmarshal_syntax _ _ Hparse) in Hret.
    exact Hret.
  - apply Error_Error_format.
Qed.

Lemma Do_malformed_body_error_witness :
  fst (Do "GET" "2.0/user" None true (fresh (anonymous (answering 502 bad_gateway))))
  = Returned
      (Some (answer 502 bad_gateway),
       Some (bitbucketError (mkError (mkAPIError bad_gateway) EmptyString 502 "2.0/user"))) /\
  Error_Error (mkError (mkAPIError bad_gateway) EmptyString 502 "2.0/user")
  = "API Error: 502 2.0/user <html>502 Bad Gateway</html>".
Proof.
  refine (Do_malformed_body_error "GET" "2.0/user" None true
            (fresh (anonymous (answering 502 bad_gateway))) (answering 502 bad_gateway)
            get_user (answer 502 bad_gateway) None bad_gateway _ _ _ _ _ _).
  - reflexivity.
  - vm_compute. reflexivity.
  - reflexivity.
  - right. vm_compute. discriminate.
  - reflexivity.
  - vm_compute. reflexivity.
Defined.

(** X11.  Members of a JSON error body which name none of the fields
    [error], [type], [StatusCode] and [Endpoint] are ignored: for an object
    with only such members the API error has an empty message and type, the
    status code of the response and the requested path. *)
Theorem Do_unknown_members_ignored
  method endpoint payload addJsonHeader w hc req resp err body members :
  HTTPClient (client w) = Some hc ->
  sent (snd (Do method endpoint payload addJsonHeader w)) = (sent w ++ [req])%list ->
  http.Client_Do hc (sent w) req = (Some resp, err) ->
  http.StatusCode resp < 200 \/ 400 <= http.StatusCode resp ->
  io.ReadAll (http.Body_ resp) = (body, None) ->
  json.parse body = Some (json.JObject members) ->
  has_known_member members = false ->
  fst (Do method endpoint payload addJsonHeader w)
  = Returned (Some resp, Some (bitbucketError (blank_error (http.StatusCode resp) endpoint))).
Proof.
  intros Hhc Hsent Hdo Hstatus Hread Hparse Hno.
  pose proof (Do_failed_response _ _ _ _ _ _ _ _ _ _ Hhc Hsent Hdo Hstatus Hread) as Hret.
  cbv zeta in Hret. rewrite (Unmarshal_parsed _ _ _ Hparse) in Hret.
  cbn [decode_Error] in Hret. rewrite (decode_members_unknown _ Hno) in Hret.
  exact Hret.
Qed.

Lemma Do_unknown_members_ignored_witness :
  fst (Do "GET" "2.0/user" None true
         (fresh (anonymous (answering 404 (js "{'message':'Repository not found','code':404}")))))
  = Returned
      (Some (answer 404 (js "{'message':'Repository not found','code':404}")),
       Some (bitbucketError (blank_error 404 "2.0/user"))).
Proof.
  refine (Do_unknown_members_ignored "GET" "2.0/user" None true
            (fresh (anonymous
                      (answering 404 (js "{'message':'Repository not found','code':404}"))))
            (answering 404 (js "{'message':'Repository not found','code':404}"))
            get_user (answer 404 (js "{'message':'Repository not found','code':404}")) None
            (js "{'message':'Repository not found','code':404}")
            [("message", json.JString "Repository not found"); ("code", json.JNumber "404")]
            _ _ _ _ _ _ _).
  - reflexivity.
  - vm_compute. reflexivity.
  - reflexivity.
  - right. vm_compute. discriminate.
  - reflexivity.
  - vm_compute. reflexivity.
  - vm_compute. reflexivity.
Defined.

(** X12.  The [Type] of the API error is the string of the body's [type]
    member, and empty when the body has none.  This holds also when the
    decoding fails on another member: only the message is replaced by the
    raw body then. *)
Theorem Do_type_of_api_error
  method endpoint payload addJsonHeader w hc req resp err body members :
  HTTPClient (client w) = Some hc ->
  sent (snd (Do method endpoint payload addJsonHeader w)) = (sent w ++ [req])%list ->
  http.Client_Do hc (sent w) req = (Some resp, err) ->
  http.StatusCode resp < 200 \/ 400 <= http.StatusCode resp ->
  io.ReadAll (http.Body_ resp) = (body, None) ->
  json.parse body = Some (json.JObject members) ->
  exists e,
    fst (Do method endpoint payload addJsonHeader w)
    = Returned (Some resp, Some (bitbucketError e)) /\
    (has_member "type" members = false -> Type_ e = EmptyString) /\
    (forall t, only_member "type" (json.JString t) members -> Type_ e = t).
Proof.
  intros Hhc Hsent Hdo Hstatus Hread Hparse.
  pose proof (Do_failed_response _ _ _ _ _ _ _ _ _ _ Hhc Hsent Hdo Hstatus Hread) as Hret.
  cbv zeta in Hret. rewrite (Unmarshal_parsed _ _ _ Hparse) in Hret.
  cbn [fst snd] in Hret.
  eexists. split; [exact Hret|].
  set (blank := blank_error (http.StatusCode resp) endpoint).
  split.
  - intros Hno.
    transitivity (Type_ (fst (decode_Error (json.JObject members) blank None))).
    + destruct (option_map jsonError (snd (decode_Error (json.JObject members) blank None)));
        reflexivity.
    + cbn [decode_Error].
      rewrite (decode_members_frame Type_ "type") by auto using decode_member_Type.
      reflexivity.
  - intros t Honly.
    transitivity (Type_ (fst (decode_Error (json.JObject members) blank None))).
    + destruct (option_map jsonError (snd (decode_Error (json.JObject members) blank None)));
        reflexivity.
    + now apply decode_Error_only_type.
Qed.


Lemma Do_type_of_api_error_witness :
  exists e,
    fst (Do "GET" "2.0/user" None true (fresh (anonymous (answering 403 typed_error))))
    = Returned (Some (answer 403 typed_error), Some (bitbucketError e)) /\
    Type_ e = "error".
Proof.
  destruct (Do_type_of_api_error "GET" "2.0/user" None true
              (fresh (anonymous (answering 403 typed_error))) (answering 403 typed_error)
              get_user (answer 403 typed_error) None typed_error
              [("type", json.JString "error"); ("error", json.JNumber "5")])
    as (e & Hret & _ & Htype).
  - reflexivity.
  - vm_compute. reflexivity.
  - reflexivity.
  - right. vm_compute. discriminate.
  - reflexivity.
  - vm_compute. reflexivity.
  - exists e. split; [exact Hret|]. apply Htype.
    exists [], "type", [("error", json.JNumber "5")]. repeat split.
Defined.

(** X5.  The request [Do] hands to the transport has the URL
    [BitbucketEndpoint] followed by the endpoint as given, the method as
    given ([GET] for the empty method), the payload as body, and [Close]
    set. *)
Theorem Do_request_line method endpoint payload addJsonHeader w req :
  sent (snd (Do method endpoint payload addJsonHeader w)) = (sent w ++ [req])%list ->
  http.URL req = BitbucketEndpoint +:+ endpoint /\
  http.Method req = (if String.eqb method EmptyString then "GET" else method) /\
  http.Body req = payload /\
  http.Close req = true.
Proof.
  intros Hsent.
  destruct (Do_request_shape _ _ _ _ _ _ Hsent) as (Hurl & Hmethod & Hclose & _).
  destruct (Do_request _ _ _ _ _ _ Hsent) as (Hbody & _).
  auto.
Qed.

Lemma Do_request_line_witness :
  http.URL (http.mkRequest "PATCH" "https://api.bitbucket.org/2.0/user" ∅ (Some "{}") true)
  = BitbucketEndpoint +:+ "2.0/user" /\
  http.Method (http.mkRequest "PATCH" "https://api.bitbucket.org/2.0/user" ∅ (Some "{}") true)
  = "PATCH" /\
  http.Body (http.mkRequest "PATCH" "https://api.bitbucket.org/2.0/user" ∅ (Some "{}") true)
  = Some "{}" /\
  http.Close (http.mkRequest "PATCH" "https://api.bitbucket.org/2.0/user" ∅ (Some "{}") true)
  = true.
Proof.
  refine (Do_request_line "PATCH" "2.0/user" (Some "{}") false
            (fresh (anonymous (answering 200 EmptyString))) _ _).
  vm_compute. reflexivity.
Defined.






(** X6.  [Do] sets no header besides [Authorization] and [Content-Type],
    and it sets [Content-Type: application/json] exactly when a payload is
    present and [addJsonHeader] is true: every request it hands to the
    transport is so, and a dispatchable call with a valid method does hand
    over such a request. *)
Theorem Do_headers method endpoint payload addJsonHeader w :
  (forall req,
     sent (snd (Do method endpoint payload addJsonHeader w)) = (sent w ++ [req])%list ->
     (forall key, key <> "Authorization" -> key <> "Content-Type" ->
                  http.Header_ req !! key = None) /\
     (payload <> None -> addJsonHeader = true ->
      http.Header_ req !! "Content-Type" = Some ["application/json"]) /\
     (payload = None \/ addJsonHeader = false ->
      http.Header_ req !! "Content-Type" = None)) /\
  (http.validMethod (if String.eqb method EmptyString then "GET" else method) = true ->
   dispatchable endpoint w ->
   exists req,
     sent (snd (Do method endpoint payload addJsonHeader w)) = (sent w ++ [req])%list /\
     (forall key, key <> "Authorization" -> key <> "Content-Type" ->
                  http.Header_ req !! key = None) /\
     http.Header_ req !! "Content-Type"
     = (if bool_decide (is_Some payload) && addJsonHeader
        then Some ["application/json"] else None)).
Proof.
  split.
  - intros req Hsent.
    pose proof (proj1 (proj2 (Do_request _ _ _ _ _ _ Hsent))) as Hct.
    pose proof (proj1 (proj2 (proj2 (proj2 (Do_request_shape _ _ _ _ _ _ Hsent)))))
      as Hother.
    split; [exact Hother|]. split.
    + intros Hp ->. rewrite Hct. destruct payload; [reflexivity|congruence].
    + intros [->| ->]; rewrite Hct; [reflexivity|]. now rewrite andb_false_r.
  - intros Hmethod Hd.
    destruct (Do_sends method endpoint payload addJsonHeader w Hmethod Hd) as [req Hsent].
    exists req. split; [exact Hsent|]. split.
    + exact (proj1 (proj2 (proj2 (proj2 (Do_request_shape _ _ _ _ _ _ Hsent))))).
    + exact (proj1 (proj2 (Do_request _ _ _ _ _ _ Hsent))).
Qed.

(** The theorem at a call with a payload and [addJsonHeader]: the request
    is sent and has the JSON content type; and at the same call without
    [addJsonHeader]: the request is sent and has no content type. *)
Lemma Do_headers_witness :
  (exists req,
     sent (snd (Do "POST" "2.0/snippets" (Some "{}") true
                  (fresh (anonymous (answering 201 EmptyString)))))
     = [req] /\
     (forall key, key <> "Authorization" -> key <> "Content-Type" ->
                  http.Header_ req !! key = None) /\
     http.Header_ req !! "Content-Type" = Some ["application/json"]) /\
  (exists req,
     sent (snd (Do "POST" "2.0/snippets" (Some "{}") false
                  (fresh (anonymous (answering 201 EmptyString)))))
     = [req] /\
     (forall key, key <> "Authorization" -> key <> "Content-Type" ->
                  http.Header_ req !! key = None) /\
     http.Header_ req !! "Content-Type" = None).
Proof.
  split.
  - refine (proj2 (Do_headers "POST" "2.0/snippets" (Some "{}") true
                     (fresh (anonymous (answering 201 EmptyString)))) _ _).
    + vm_compute. reflexivity.
    + split; [vm_compute; reflexivity|]. split; [|discriminate].
      intros ts Hts. discriminate Hts.
  - refine (proj2 (Do_headers "POST" "2.0/snippets" (Some "{}") false
                     (fresh (anonymous (answering 201 EmptyString)))) _ _).
    + vm_compute. reflexivity.
    + split; [vm_compute; reflexivity|]. split; [|discriminate].
      intros ts Hts. discriminate Hts.
Defined.



Lemma names_field_exclusive name other key :
  strings.fold name <> strings.fold other ->
  names_field name key = true -> names_field other key = false.
Proof.
  unfold names_field, strings.EqualFold. intros Hne Hkey.
  apply String.eqb_eq in Hkey. apply String.eqb_neq. congruence.
Qed.

Lemma decode_Error_only_StatusCode members lit z cur saved :
  only_member "StatusCode" (json.JNumber lit) members ->
  strconv.ParseInt lit = Some z ->
  StatusCode (fst (decode_Error (json.JObject members) cur saved)) = z.
Proof.
  intros (pre & key & post & -> & Hkey & Hpre & Hpost) Hint.
  cbn [decode_Error]. rewrite fold_left_app. cbn [fold_left].
  rewrite (decode_members_frame StatusCode "StatusCode" post)
    by auto using decode_member_StatusCode.
  destruct (fold_left decode_Error_member pre (cur, saved)) as [cur' saved'].
  unfold decode_Error_member.
  rewrite (names_field_exclusive "StatusCode" "error" key) by (discriminate || exact Hkey).
  rewrite (names_field_exclusive "StatusCode" "type" key) by (discriminate || exact Hkey).
  rewrite Hkey. cbn [store_int]. rewrite Hint. reflexivity.
Qed.

Lemma decode_Error_only_Endpoint members s cur saved :
  only_member "Endpoint" (json.JString s) members ->
  Endpoint (fst (decode_Error (json.JObject members) cur saved)) = s.
Proof.
  intros (pre & key & post & -> & Hkey & Hpre & Hpost).
  cbn [decode_Error]. rewrite fold_left_app. cbn [fold_left].
  rewrite (decode_members_frame Endpoint "Endpoint" post)
    by auto using decode_member_Endpoint.
  destruct (fold_left decode_Error_member pre (cur, saved)) as [cur' saved'].
  unfold decode_Error_member.
  rewrite (names_field_exclusive "Endpoint" "error" key) by (discriminate || exact Hkey).
  rewrite (names_field_exclusive "Endpoint" "type" key) by (discriminate || exact Hkey).
  rewrite (names_field_exclusive "Endpoint" "StatusCode" key) by (discriminate || exact Hkey).
  rewrite Hkey. reflexivity.
Qed.

(** X13.  A JSON error body can overwrite the status code and the endpoint
    of the API error: the integer of its only [StatusCode] member and the
    string of its only [Endpoint] member (names match without regard to
    case) are what the error carries, in place of the status code of the
    response and the requested path. *)
Theorem Do_body_overrides_status_and_endpoint
  method endpoint payload addJsonHeader w hc req resp err body members :
  HTTPClient (client w) = Some hc ->
  sent (snd (Do method endpoint payload addJsonHeader w)) = (sent w ++ [req])%list ->
  http.Client_Do hc (sent w) req = (Some resp, err) ->
  http.StatusCode resp < 200 \/ 400 <= http.StatusCode resp ->
  io.ReadAll (http.Body_ resp) = (body, None) ->
  json.parse body = Some (json.JObject members) ->
  exists e,
    fst (Do method endpoint payload addJsonHeader w)
    = Returned (Some resp, Some (bitbucketError e)) /\
    (forall lit z,
       only_member "StatusCode" (json.JNumber lit) members ->
       strconv.ParseInt lit = Some z -> StatusCode e = z) /\
    (forall s, only_member "Endpoint" (json.JString s) members -> Endpoint e = s).
Proof.
  intros Hhc Hsent Hdo Hstatus Hread Hparse.
  pose proof (Do_failed_response _ _ _ _ _ _ _ _ _ _ Hhc Hsent Hdo Hstatus Hread) as Hret.
  cbv zeta in Hret. rewrite (Unmarshal_parsed _ _ _ Hparse) in Hret.
  cbn [fst snd] in Hret.
  eexists. split; [exact Hret|].
  set (blank := blank_error (http.StatusCode resp) endpoint).
  split.
  - intros lit z Honly Hint.
    transitivity (StatusCode (fst (decode_Error (json.JObject members) blank None))).
    + destruct (option_map jsonError (snd (decode_Error (json.JObject members) blank None)));
        reflexivity.
    + now apply decode_Error_only_StatusCode with (lit := lit).
  - intros s Honly.
    transitivity (Endpoint (fst (decode_Error (json.JObject members) blank None))).
    + destruct (option_map jsonError (snd (decode_Error (json.JObject members) blank None)));
        reflexivity.
    + now apply decode_Error_only_Endpoint.
Qed.

Lemma Do_body_overrides_status_and_endpoint_witness :
  exists e,
    fst (Do "GET" "2.0/user" None true (fresh (anonymous (answering 500 spoofed))))
    = Returned (Some (answer 500 spoofed), Some (bitbucketError e)) /\
    StatusCode e = 200 /\ Endpoint e = "elsewhere".
Proof.
  destruct (Do_body_overrides_status_and_endpoint "GET" "2.0/user" None true
              (fresh (anonymous (answering 500 spoofed))) (answering 500 spoofed)
              get_user (answer 500 spoofed) None spoofed
              [("statuscode", json.JNumber "200"); ("endpoint", json.JString "elsewhere")])
    as (e & Hret & Hstatus & Hendpoint).
  - reflexivity.
  - vm_compute. reflexivity.
  - reflexivity.
  - right. vm_compute. discriminate.
  - reflexivity.
  - vm_compute. reflexivity.
  - exists e. split; [exact Hret|]. split.
    + apply (Hstatus "200").
      * exists [], "statuscode", [("endpoint", json.JString "elsewhere")]. repeat split.
      * reflexivity.
    + apply Hendpoint.
      exists [("statuscode", json.JNumber "200")], "endpoint", []. repeat split.
Defined.

Lemma Do_result_invariant_witness :
  (Some (answer 404 not_found) = None ->
   Some (bitbucketError (mkError (mkAPIError "nope") EmptyString 404 "2.0/user")) <> None) /\
  (forall r, Some (answer 404 not_found) = Some r ->
             Some (bitbucketError (mkError (mkAPIError "nope") EmptyString 404 "2.0/user"))
             = None ->
             200 <= http.StatusCode r < 400) /\
  (forall r, Some (answer 404 not_found) = Some r ->
             http.StatusCode r < 200 \/ 400 <= http.StatusCode r ->
             exists e,
               Some (bitbucketError (mkError (mkAPIError "nope") EmptyString 404 "2.0/user"))
               = Some (bitbucketError e)).
Proof.
  refine (Do_result_invariant "GET" "2.0/user" None true
            (fresh (anonymous (answering 404 not_found)))
            (Some (answer 404 not_found))
            (Some (bitbucketError (mkError (mkAPIError "nope") EmptyString 404 "2.0/user")))
            _).
  vm_compute. reflexivity.
Defined.

Lemma Do_calls_collaborators_once_witness :
  token_calls (snd (Do "GET" "2.0/user" None true (fresh alice))) = 0%nat.
Proof.
  refine (proj2 (proj2 (Do_calls_collaborators_once "GET" "2.0/user" None true (fresh alice)))
            _).
  reflexivity.
Defined.

Lemma Do_construction_error_witness :
  fst (Do "GET" "2.0/%zz" None true (fresh alice))
  = Returned (None, Some (urlError "parse" "https://api.bitbucket.org/2.0/%zz")) /\
  sent (snd (Do "GET" "2.0/%zz" None true (fresh alice))) = [] /\
  token_calls (snd (Do "GET" "2.0/%zz" None true (fresh alice))) = 0%nat.
Proof.
  refine (Do_construction_error "GET" "2.0/%zz" None true (fresh alice)
            (urlError "parse" "https://api.bitbucket.org/2.0/%zz") _).
  vm_compute. reflexivity.
Defined.

Lemma Do_without_transport_panics_witness :
  fst (Do "GET" "2.0/user" None true (fresh unconfigured)) = Panicked NilPointerDereference /\
  sent (snd (Do "GET" "2.0/user" None true (fresh unconfigured))) = [].
Proof.
  refine (Do_without_transport_panics "GET" "2.0/user" None true (fresh unconfigured)
            (http.mkRequest "GET" "https://api.bitbucket.org/2.0/user" ∅ None false) _ _ _).
  - reflexivity.
  - vm_compute. reflexivity.
  - intros ts Hts. discriminate Hts.
Defined.

Lemma Do_logs_request_and_payload_witness :
  exists rest,
    logged (snd (Do "POST" "2.0/snippets" (Some "{}") true
                   (fresh (anonymous (answering 201 EmptyString)))))
    = ("[DEBUG] Sending request to %s %s",
       [LogStr "POST"; LogStr (BitbucketEndpoint +:+ "2.0/snippets")]) :: rest /\
    In ("[DEBUG] With payload %s", [LogStr "{}"]) rest.
Proof.
  destruct (Do_logs_request_and_payload "POST" "2.0/snippets" (Some "{}") true
              (fresh (anonymous (answering 201 EmptyString)))) as (rest & Hlog & Hin).
  exists rest. split; [exact Hlog|]. exact (Hin "{}" eq_refl).
Defined.
